(** * The dummy socket server of requests-ftp ([dummyserver/server.py])

    A shallow embedding of the scripted socket server that the test suite
    uses, and the properties of its lifecycle: the capability probe, the
    request drain, the server thread, the harness classes and their scripted
    handlers. *)

From Stdlib Require Import ZArith Ascii String.
From stdpp Require Import base decidable option list numbers strings sets.

Local Open Scope Z_scope.
Local Open Scope list_scope.

(** ** Byte strings *)

(** A Python [bytes] value is a sequence of 8-bit characters. *)
Definition bytes := list ascii.

(** A bytes literal, written as its text. *)
Definition b (s : string) : bytes := list_ascii_of_string s.

Definition CR : ascii := ascii_of_nat 13.
Definition LF : ascii := ascii_of_nat 10.

(** The literal [b'\r\n']. *)
Definition crlf : bytes := [CR; LF].

(** [bytes.endswith(suffix)]: the last [len(suffix)] bytes are [suffix]. *)
Definition endswith (s suffix : bytes) : bool :=
  (length suffix <=? length s)%nat
  && bool_decide (drop (length s - length suffix)%nat s = suffix).

(** Truth value of an optional payload: [None] and [b''] are false. *)
Definition truthy (p : option bytes) : bool :=
  match p with
  | None => false
  | Some [] => false
  | Some (_ :: _) => true
  end.

(** ** The world the server runs in *)

Inductive family := AF_INET | AF_INET6.

#[global] Instance family_eq_dec : EqDecision family.
Proof. solve_decision. Defined.

(** A socket object.  A listening socket comes from [socket.socket]; a
    connection socket comes from [accept].  [s_inbox] lists what
    the successive [recv] calls on the socket return; when it is exhausted
    the peer has closed the connection and every further [recv] returns
    [b''].  [s_sent] lists the payloads handed to [send], oldest first. *)
Record sockobj := mk_sock {
  s_family : family;
  s_bound : option Z;
  s_listening : bool;
  s_closed : bool;
  s_inbox : list bytes;
  s_sent : list bytes
}.

(** What the thread and the harness do, in the order they do it. *)
Inductive action :=
| ASocket (s : nat) (f : family)          (* socket.socket(f) returned s *)
| ASetsockopt (s : nat)                   (* s.setsockopt(SO_REUSEADDR) *)
| ABind (s : nat) (host : string) (port : Z)  (* s.bind((host, 0)) returned *)
| AStorePort (t : nat) (port : Z)         (* thread t stored self.port *)
| AListen (s : nat)                       (* s.listen(0) returned *)
| AWarn                                   (* warnings.warn(NoIPv6Warning) *)
| ASet (e : nat)                          (* e.set() *)
| ARelease (e : nat)                      (* another thread called e.set() *)
| AWait (e : nat)                         (* e.wait() returned *)
| AClear (e : nat)                        (* e.clear() *)
| AAccept (l s : nat)                     (* l.accept() returned s *)
| ASend (s : nat) (data : bytes)          (* s.send(data) *)
| AClose (s : nat).                       (* s.close() *)

#[global] Instance action_eq_dec : EqDecision action.
Proof. solve_decision. Defined.

(** The operating system and the interpreter build, as far as the server
    depends on them. *)
Record os := mk_os {
  os_has_ipv6 : bool;                     (* socket.has_ipv6 *)
  os_socket_ok : family -> bool;          (* socket.socket(f) succeeds *)
  os_bind : family -> string -> option Z; (* port given by bind((host, 0)) *)
  os_win32 : bool                         (* sys.platform == 'win32' *)
}.

(** The closures that the harness classes pass to the thread, with the
    variables they capture. *)
Inductive closure :=
| response_handler (ready_event : nat) (response : bytes) (num : Z)
                   (block_send : option nat)
| ftp_handler (ready_event : nat) (response : bytes) (num : Z)
              (block_send : option nat)
              (welcome_first user_resp type_i_resp pasv_resp : option bytes).

Inductive thread_class := SocketServerThread | DelayedSocketServerThread.

(** A thread object.  [t_USE_IPV6] is the instance attribute, when one was
    assigned; [t_frame] holds the local [sock] of [_start_server] while the
    thread is suspended before [_handle_socket]. *)
Record thread := mk_thread {
  t_class : thread_class;
  t_socket_handler : closure;
  t_host : string;
  t_ready_event : option nat;
  t_USE_IPV6 : option bool;
  t_port : option Z;
  t_socks : option nat;
  t_frame : option nat
}.

(** The harness classes and their own attributes ([None]: inherited). *)
Inductive cls :=
| SocketDummyServer
| DelayedCloseSocketDummyServer
| IPV4SocketDummyServer
| FTPSocketDummyServer.

#[global] Instance cls_eq_dec : EqDecision cls.
Proof. solve_decision. Defined.

Record cls_dict := mk_cls_dict {
  cd_server_thread : option nat;
  cd_socks : option nat;
  cd_port : option Z
}.

Record world := mk_world {
  w_os : os;
  w_USE_IPV6 : bool;              (* SocketServerThread.USE_IPV6 *)
  w_socks : list sockobj;         (* socket objects, by identity *)
  w_events : list bool;           (* threading.Event flags, by identity *)
  w_lists : list (list nat);      (* Python lists of sockets, by identity *)
  w_threads : list thread;        (* thread objects, by identity *)
  w_classes : cls -> cls_dict;    (* attributes set on the harness classes *)
  w_backlog : list (list bytes);  (* clients that connect, with their reads *)
  w_releases : nat;               (* times the test will release a gate *)
  w_trace : list action           (* actions so far, oldest first *)
}.

Definition set_socks (f : list sockobj -> list sockobj) (w : world) : world :=
  mk_world (w_os w) (w_USE_IPV6 w) (f (w_socks w)) (w_events w) (w_lists w)
    (w_threads w) (w_classes w) (w_backlog w) (w_releases w)
    (w_trace w).

Definition set_events (f : list bool -> list bool) (w : world) : world :=
  mk_world (w_os w) (w_USE_IPV6 w) (w_socks w) (f (w_events w)) (w_lists w)
    (w_threads w) (w_classes w) (w_backlog w) (w_releases w)
    (w_trace w).

Definition set_lists (f : list (list nat) -> list (list nat)) (w : world)
  : world :=
  mk_world (w_os w) (w_USE_IPV6 w) (w_socks w) (w_events w) (f (w_lists w))
    (w_threads w) (w_classes w) (w_backlog w) (w_releases w)
    (w_trace w).

Definition set_threads (f : list thread -> list thread) (w : world) : world :=
  mk_world (w_os w) (w_USE_IPV6 w) (w_socks w) (w_events w) (w_lists w)
    (f (w_threads w)) (w_classes w) (w_backlog w)
    (w_releases w) (w_trace w).

Definition set_classes (f : (cls -> cls_dict) -> cls -> cls_dict) (w : world)
  : world :=
  mk_world (w_os w) (w_USE_IPV6 w) (w_socks w) (w_events w) (w_lists w)
    (w_threads w) (f (w_classes w)) (w_backlog w)
    (w_releases w) (w_trace w).

Definition set_backlog (f : list (list bytes) -> list (list bytes))
  (w : world) : world :=
  mk_world (w_os w) (w_USE_IPV6 w) (w_socks w) (w_events w) (w_lists w)
    (w_threads w) (w_classes w) (f (w_backlog w))
    (w_releases w) (w_trace w).

Definition set_releases (f : nat -> nat) (w : world) : world :=
  mk_world (w_os w) (w_USE_IPV6 w) (w_socks w) (w_events w) (w_lists w)
    (w_threads w) (w_classes w) (w_backlog w)
    (f (w_releases w)) (w_trace w).

Definition log (a : action) (w : world) : world :=
  mk_world (w_os w) (w_USE_IPV6 w) (w_socks w) (w_events w) (w_lists w)
    (w_threads w) (w_classes w) (w_backlog w) (w_releases w)
    (w_trace w ++ [a]).

(** ** Computations *)

(** Why a computation did not return: an exception left it, it is suspended
    in a blocking call that nothing will wake, or it is still looping when
    the fuel is spent. *)
Inductive stop := Raise | Block | Spin.

Inductive outcome (A : Type) :=
| Done (a : A) (w : world)
| Stop (r : stop) (w : world).
Arguments Done {A} a w.
Arguments Stop {A} r w.

Definition M (A : Type) := world -> outcome A.

Definition ret {A} (a : A) : M A := fun w => Done a w.

Definition bind {A B} (m : M A) (k : A -> M B) : M B :=
  fun w => match m w with
           | Done a w' => k a w'
           | Stop r w' => Stop r w'
           end.

Definition raise {A} : M A := fun w => Stop Raise w.
Definition spin {A} : M A := fun w => Stop Spin w.

Definition get : M world := fun w => Done w w.
Definition modify (f : world -> world) : M unit := fun w => Done tt (f w).

Declare Scope py_scope.
Delimit Scope py_scope with py.
Notation "x <- c1 ;; c2" := (bind c1 (fun x => c2))
  (at level 100, c1 at next level, right associativity) : py_scope.
Notation "c1 ;;; c2" := (bind c1 (fun _ => c2))
  (at level 100, right associativity) : py_scope.
Local Open Scope py_scope.

Definition final {A} (o : outcome A) : world :=
  match o with Done _ w => w | Stop _ w => w end.

(** [try: m  except: h], with [h] run where the exception was raised. *)
Definition catch {A} (m h : M A) : M A :=
  fun w => match m w with
           | Stop Raise w' => h w'
           | o => o
           end.

(** [for _ in range(n): body]. *)
Fixpoint for_range (n : nat) (body : M unit) : M unit :=
  match n with
  | O => ret tt
  | S n' => body ;;; for_range n' body
  end.

(** ** The library calls the server makes *)

(** [threading.Event()]. *)
Definition new_event : M nat :=
  fun w => Done (length (w_events w)) (set_events (fun l => l ++ [false]) w).

Definition event_flag (e : nat) (w : world) : bool :=
  default false (w_events w !! e).

Definition event_set (e : nat) : M unit :=
  modify (fun w => log (ASet e) (set_events <[e:=true]> w)).

Definition event_clear (e : nat) : M unit :=
  modify (fun w => log (AClear e) (set_events <[e:=false]> w)).

Definition event_is_set (e : nat) : M bool :=
  fun w => Done (event_flag e w) w.

(** [e.wait()] returns once the flag is set.  While the flag is clear the
    caller sleeps; the test thread wakes it with [e.set()] as long as it has
    releases left, and never after that. *)
Definition event_wait (e : nat) : M unit :=
  fun w =>
    if event_flag e w then Done tt (log (AWait e) w)
    else match w_releases w with
         | O => Stop Block w
         | S n =>
             Done tt (log (AWait e) (log (ARelease e)
               (set_events <[e:=true]> (set_releases (fun _ => n) w))))
         end.

(** [e.wait(timeout)] returns when the flag is set or the time is up. *)
Definition event_wait_timeout (e : nat) (timeout : Z) : M unit := ret tt.

Definition new_sock (f : family) : sockobj := mk_sock f None false false [] [].

(** The connection socket that [accept] makes for a client. *)
Definition conn_sock (lo : sockobj) (reads : list bytes) : sockobj :=
  mk_sock (s_family lo) (s_bound lo) false false reads [].

Definition sock_bound (p : Z) (so : sockobj) : sockobj :=
  mk_sock (s_family so) (Some p) (s_listening so) (s_closed so) (s_inbox so)
    (s_sent so).
Definition sock_listening (so : sockobj) : sockobj :=
  mk_sock (s_family so) (s_bound so) true (s_closed so) (s_inbox so)
    (s_sent so).
Definition sock_inbox (rest : list bytes) (so : sockobj) : sockobj :=
  mk_sock (s_family so) (s_bound so) (s_listening so) (s_closed so) rest
    (s_sent so).
Definition sock_sent (data : bytes) (so : sockobj) : sockobj :=
  mk_sock (s_family so) (s_bound so) (s_listening so) (s_closed so)
    (s_inbox so) (s_sent so ++ [data]).
Definition sock_closed (so : sockobj) : sockobj :=
  mk_sock (s_family so) (s_bound so) (s_listening so) true (s_inbox so)
    (s_sent so).

(** [socket.socket(f)]. *)
Definition socket_socket (f : family) : M nat :=
  fun w =>
    if os_socket_ok (w_os w) f then
      let s := length (w_socks w) in
      Done s (log (ASocket s f) (set_socks (fun l => l ++ [new_sock f]) w))
    else Stop Raise w.

Definition setsockopt (s : nat) : M unit := modify (log (ASetsockopt s)).

(** [s.bind((host, 0))]: the system chooses the port. *)
Definition sock_bind (s : nat) (host : string) : M unit :=
  fun w =>
    match w_socks w !! s with
    | Some so =>
        if s_closed so then Stop Raise w
        else match os_bind (w_os w) (s_family so) host with
             | Some p =>
                 Done tt (log (ABind s host p) (set_socks
                   <[s := sock_bound p so]> w))
             | None => Stop Raise w
             end
    | None => Stop Raise w
    end.

(** [s.getsockname()[1]]. *)
Definition getsockname_port (s : nat) : M Z :=
  fun w =>
    match w_socks w !! s with
    | Some so => if s_closed so then Stop Raise w
                 else Done (default 0 (s_bound so)) w
    | None => Stop Raise w
    end.

(** [s.listen(0)]. *)
Definition sock_listen (s : nat) : M unit :=
  fun w =>
    match w_socks w !! s with
    | Some so =>
        if s_closed so then Stop Raise w
        else Done tt (log (AListen s) (set_socks
               <[s := sock_listening so]> w))
    | None => Stop Raise w
    end.

(** [l.accept()[0]]: waits for the next client to connect. *)
Definition accept (l : nat) : M nat :=
  fun w =>
    match w_socks w !! l with
    | Some lo =>
        if s_closed lo || negb (s_listening lo) then Stop Raise w
        else match w_backlog w with
             | [] => Stop Block w
             | reads :: rest =>
                 let s := length (w_socks w) in
                 Done s (log (AAccept l s)
                   (set_socks (fun ss => ss ++ [conn_sock lo reads])
                      (set_backlog (fun _ => rest) w)))
             end
    | None => Stop Raise w
    end.

(** [s.recv(bufsize)]: the next read of the connection, which is at most
    [bufsize] bytes long, or [b''] once the peer has closed. *)
Definition recv (s : nat) (bufsize : Z) : M bytes :=
  fun w =>
    match w_socks w !! s with
    | Some so =>
        if s_closed so then Stop Raise w
        else match s_inbox so with
             | [] => Done [] w
             | data :: rest =>
                 Done data (set_socks
                   <[s := sock_inbox rest so]> w)
             end
    | None => Stop Raise w
    end.

(** [s.send(data)]: the payload is handed to the socket; the handlers do
    not look at the count that [send] returns. *)
Definition send (s : nat) (data : bytes) : M unit :=
  fun w =>
    match w_socks w !! s with
    | Some so =>
        if s_closed so then Stop Raise w
        else Done tt (log (ASend s data) (set_socks
               <[s := sock_sent data so]> w))
    | None => Stop Raise w
    end.

(** [s.close()]; closing a closed socket is allowed. *)
Definition close (s : nat) : M unit :=
  fun w =>
    match w_socks w !! s with
    | Some so =>
        Done tt (log (AClose s) (set_socks
          <[s := sock_closed so]> w))
    | None => Stop Raise w
    end.

Definition warn : M unit := modify (log AWarn).

(** A fresh list object [[]], [l.append(x)] and the elements of [l]. *)
Definition list_new : M nat :=
  fun w => Done (length (w_lists w)) (set_lists (fun ls => ls ++ [[]]) w).

Definition list_append (l x : nat) : M unit :=
  fun w =>
    match w_lists w !! l with
    | Some xs => Done tt (set_lists <[l := xs ++ [x]]> w)
    | None => Stop Raise w
    end.

Definition list_items (l : nat) : M (list nat) :=
  fun w =>
    match w_lists w !! l with
    | Some xs => Done xs w
    | None => Stop Raise w
    end.

(** ** [consume_socket] and [_has_ipv6] *)

Fixpoint consume_socket (fuel : nat) (sock : nat) (chunks : Z) : M unit :=
  match fuel with
  | O => spin
  | S fuel' =>
      data <- recv sock chunks ;;
      if endswith data crlf then ret tt
      else consume_socket fuel' sock chunks
  end.

Definition default_chunks : Z := 65536.

Definition _has_ipv6 (host : string) : M bool :=
  w <- get ;;
  r <- (if os_has_ipv6 (w_os w) then
          catch (sock <- socket_socket AF_INET6 ;;
                 catch (sock_bind sock host ;;; ret (Some sock, true))
                       (ret (Some sock, false)))
                (ret (None, false))
        else ret (None, false)) ;;
  match r with
  | (Some sock, has_ipv6) => close sock ;;; ret has_ipv6
  | (None, has_ipv6) => ret has_ipv6
  end.

(** Module initialisation: [HAS_IPV6_AND_DNS], [HAS_IPV6] and the class
    attribute [SocketServerThread.USE_IPV6 = HAS_IPV6_AND_DNS]. *)
Definition set_USE_IPV6 (v : bool) (w : world) : world :=
  mk_world (w_os w) v (w_socks w) (w_events w) (w_lists w) (w_threads w)
    (w_classes w) (w_backlog w) (w_releases w) (w_trace w).

Definition import_server : M (bool * bool) :=
  HAS_IPV6_AND_DNS <- _has_ipv6 "localhost" ;;
  HAS_IPV6 <- _has_ipv6 "::1" ;;
  modify (set_USE_IPV6 HAS_IPV6_AND_DNS) ;;;
  ret (HAS_IPV6_AND_DNS, HAS_IPV6).

(** ** The scripted handlers *)

(** The gate of a handler: [if block_send: block_send.wait();
    block_send.clear()]. *)
Definition gate (block_send : option nat) : M unit :=
  match block_send with
  | Some g => event_wait g ;;; event_clear g
  | None => ret tt
  end.

(** [socket_handler] of [SocketDummyServer.start_response_handler]; the one
    of [DelayedCloseSocketDummyServer.start_response_handler] has the same
    text. *)
Definition socket_handler (fuel : nat) (ready_event : nat) (response : bytes)
  (num : Z) (block_send : option nat) (listener : nat) : M nat :=
  socks <- list_new ;;
  for_range (Z.to_nat num)
    (event_set ready_event ;;;
     sock <- accept listener ;;
     consume_socket fuel sock default_chunks ;;;
     gate block_send ;;;
     send sock response ;;;
     list_append socks sock) ;;;
  ret socks.

(** [if payload: sock.send(payload)]. *)
Definition send_if (sock : nat) (payload : option bytes) : M unit :=
  if truthy payload then send sock (default [] payload) else ret tt.

(** [socket_handler] of [FTPSocketDummyServer.start_response_handler]. *)
Definition ftp_socket_handler (fuel : nat) (ready_event : nat)
  (response : bytes) (num : Z) (block_send : option nat)
  (welcome_first user_resp type_i_resp pasv_resp : option bytes)
  (listener : nat) : M nat :=
  socks <- list_new ;;
  for_range (Z.to_nat num)
    (event_set ready_event ;;;
     sock <- accept listener ;;
     send_if sock welcome_first ;;;
     consume_socket fuel sock default_chunks ;;;
     send_if sock user_resp ;;;
     consume_socket fuel sock default_chunks ;;;
     send_if sock type_i_resp ;;;
     consume_socket fuel sock default_chunks ;;;
     send_if sock pasv_resp ;;;
     gate block_send ;;;
     send sock response ;;;
     list_append socks sock) ;;;
  ret socks.

(** Calling a closure with the listening socket. *)
Definition call (fuel : nat) (h : closure) (listener : nat) : M nat :=
  match h with
  | response_handler ready_event response num block_send =>
      socket_handler fuel ready_event response num block_send listener
  | ftp_handler ready_event response num block_send
                welcome_first user_resp type_i_resp pasv_resp =>
      ftp_socket_handler fuel ready_event response num block_send
        welcome_first user_resp type_i_resp pasv_resp listener
  end.

(** The default payloads of the FTP handshake. *)
Definition welcome_first_default : bytes :=
  b "220 Welcome to ftpdummy 0.1" ++ crlf.
Definition user_resp_default : bytes := b "230 Login successful." ++ crlf.
Definition type_i_resp_default : bytes :=
  b "200 Switching to Binary mode." ++ crlf.
Definition pasv_resp_default : bytes :=
  b "227 Entering Passive Mode (127,0,0,1,?,?)." ++ crlf.

(** ** The server threads *)

Definition get_thread (t : nat) : M thread :=
  fun w => match w_threads w !! t with
           | Some th => Done th w
           | None => Stop Raise w
           end.

Definition set_thread (t : nat) (f : thread -> thread) : M unit :=
  fun w => match w_threads w !! t with
           | Some th => Done tt (set_threads <[t := f th]> w)
           | None => Stop Raise w
           end.

Definition with_port (p : Z) (th : thread) : thread :=
  mk_thread (t_class th) (t_socket_handler th) (t_host th) (t_ready_event th)
    (t_USE_IPV6 th) (Some p) (t_socks th) (t_frame th).

Definition with_socks (l : nat) (th : thread) : thread :=
  mk_thread (t_class th) (t_socket_handler th) (t_host th) (t_ready_event th)
    (t_USE_IPV6 th) (t_port th) (Some l) (t_frame th).

Definition with_USE_IPV6 (v : bool) (th : thread) : thread :=
  mk_thread (t_class th) (t_socket_handler th) (t_host th) (t_ready_event th)
    (Some v) (t_port th) (t_socks th) (t_frame th).

Definition with_frame (s : nat) (th : thread) : thread :=
  mk_thread (t_class th) (t_socket_handler th) (t_host th) (t_ready_event th)
    (t_USE_IPV6 th) (t_port th) (t_socks th) (Some s).

(** [SocketServerThread.__init__] and [DelayedSocketServerThread.__init__]:
    the delayed thread starts with [self.socks = []]. *)
Definition Thread_init (k : thread_class) (socket_handler : closure)
  (host : string) (ready_event : option nat) : M nat :=
  socks <- match k with
           | SocketServerThread => ret None
           | DelayedSocketServerThread => l <- list_new ;; ret (Some l)
           end ;;
  fun w =>
    Done (length (w_threads w))
      (set_threads (fun ts => ts ++ [mk_thread k socket_handler host
                                 ready_event None None socks None]) w).

(** [self.USE_IPV6]: the instance attribute, else the class attribute. *)
Definition USE_IPV6 (th : thread) (w : world) : bool :=
  default (w_USE_IPV6 w) (t_USE_IPV6 th).

(** [SocketServerThread._start_server] up to the call of
    [self._handle_socket(sock)]; returns the local [sock]. *)
Definition SocketServerThread_listen (self : nat) : M nat :=
  th <- get_thread self ;;
  w <- get ;;
  sock <- (if USE_IPV6 th w then socket_socket AF_INET6
           else warn ;;; socket_socket AF_INET) ;;
  (if os_win32 (w_os w) then ret tt else setsockopt sock) ;;;
  sock_bind sock (t_host th) ;;;
  port <- getsockname_port sock ;;
  set_thread self (with_port port) ;;;
  modify (log (AStorePort self port)) ;;;
  sock_listen sock ;;;
  match t_ready_event th with
  | Some e => event_set e
  | None => ret tt
  end ;;;
  ret sock.

(** [_handle_socket], by the class of the thread. *)
Definition SocketServerThread__handle_socket (fuel : nat) (self : nat)
  (sock : nat) : M unit :=
  th <- get_thread self ;;
  call fuel (t_socket_handler th) sock ;;;
  close sock.

Definition DelayedSocketServerThread__handle_socket (fuel : nat) (self : nat)
  (sock : nat) : M unit :=
  th <- get_thread self ;;
  socks <- call fuel (t_socket_handler th) sock ;;
  set_thread self (with_socks socks).

Definition _handle_socket (fuel : nat) (self : nat) (sock : nat) : M unit :=
  th <- get_thread self ;;
  match t_class th with
  | SocketServerThread => SocketServerThread__handle_socket fuel self sock
  | DelayedSocketServerThread =>
      DelayedSocketServerThread__handle_socket fuel self sock
  end.

(** [SocketServerThread._start_server]: the steps above, then
    [self._handle_socket(sock)]; [run] calls it. *)
Definition SocketServerThread__start_server (fuel : nat) (self : nat)
  : M unit :=
  sock <- SocketServerThread_listen self ;;
  _handle_socket fuel self sock.

Definition run (fuel : nat) (self : nat) : M unit :=
  SocketServerThread__start_server fuel self.

(** The two threads.  [Thread.start()] lets the new thread run until it is
    about to call its handler; an exception in the thread ends the thread,
    not the caller.  The first [accept] of the handler then waits for a
    client, and a client can connect only with the port that the caller
    publishes, so the rest of the thread, [Thread_resume], runs when the
    harness method has returned.  This is the order of every run with
    [num >= 1]. *)
Definition Thread_start (self : nat) : M unit :=
  catch (sock <- SocketServerThread_listen self ;;
         set_thread self (with_frame sock))
        (ret tt).

Definition Thread_resume (fuel : nat) (self : nat) : M unit :=
  th <- get_thread self ;;
  match t_frame th with
  | Some sock => _handle_socket fuel self sock
  | None => ret tt
  end.

(** ** The harness classes *)

Definition host : string := "localhost".

(** Method resolution order of the harness classes. *)
Definition mro (c : cls) : list cls :=
  match c with
  | SocketDummyServer => [SocketDummyServer]
  | DelayedCloseSocketDummyServer =>
      [DelayedCloseSocketDummyServer; SocketDummyServer]
  | IPV4SocketDummyServer => [IPV4SocketDummyServer; SocketDummyServer]
  | FTPSocketDummyServer =>
      [FTPSocketDummyServer; DelayedCloseSocketDummyServer; SocketDummyServer]
  end.

(** [cls.attr]: the first class of the order that has the attribute. *)
Fixpoint lookup_attr {A} (attr : cls_dict -> option A) (cs : list cls)
  (w : world) : option A :=
  match cs with
  | [] => None
  | c :: cs' => match attr (w_classes w c) with
                | Some a => Some a
                | None => lookup_attr attr cs' w
                end
  end.

Definition getattr {A} (attr : cls_dict -> option A) (c : cls) (w : world)
  : option A :=
  lookup_attr attr (mro c) w.

Definition setattr (c : cls) (f : cls_dict -> cls_dict) : M unit :=
  modify (set_classes (fun cd c' => if decide (c' = c) then f (cd c')
                                    else cd c')).

Definition server_thread_class (c : cls) : thread_class :=
  match c with
  | SocketDummyServer | IPV4SocketDummyServer => SocketServerThread
  | DelayedCloseSocketDummyServer | FTPSocketDummyServer =>
      DelayedSocketServerThread
  end.

Definition store_server_thread (t : nat) (d : cls_dict) : cls_dict :=
  mk_cls_dict (Some t) (cd_socks d) (cd_port d).
Definition store_socks (l : nat) (d : cls_dict) : cls_dict :=
  mk_cls_dict (cd_server_thread d) (Some l) (cd_port d).
Definition store_port (p : Z) (d : cls_dict) : cls_dict :=
  mk_cls_dict (cd_server_thread d) (cd_socks d) (Some p).

(** [cls.port = cls.server_thread.port]; the thread has no [port] before it
    has bound its socket. *)
Definition publish_port (c : cls) (t : nat) : M unit :=
  th <- get_thread t ;;
  match t_port th with
  | Some p => setattr c (store_port p)
  | None => raise
  end.

Definition SocketDummyServer__start_server (c : cls)
  (socket_handler : closure) : M unit :=
  ready_event <- new_event ;;
  t <- Thread_init (server_thread_class c) socket_handler host
         (Some ready_event) ;;
  setattr c (store_server_thread t) ;;;
  Thread_start t ;;;
  event_wait_timeout ready_event 5 ;;;
  is_set <- event_is_set ready_event ;;
  if negb is_set then raise
  else publish_port c t.

Definition DelayedCloseSocketDummyServer__start_server (c : cls)
  (socket_handler : closure) : M unit :=
  SocketDummyServer__start_server c socket_handler ;;;
  w <- get ;;
  match getattr cd_server_thread c w with
  | Some t =>
      th <- get_thread t ;;
      match t_socks th with
      | Some l => setattr c (store_socks l)
      | None => raise
      end
  | None => raise
  end.

Definition IPV4SocketDummyServer__start_server (c : cls)
  (socket_handler : closure) : M unit :=
  ready_event <- new_event ;;
  t <- Thread_init SocketServerThread socket_handler host
         (Some ready_event) ;;
  setattr c (store_server_thread t) ;;;
  set_thread t (with_USE_IPV6 false) ;;;
  Thread_start t ;;;
  event_wait_timeout ready_event 5 ;;;
  is_set <- event_is_set ready_event ;;
  if negb is_set then raise
  else publish_port c t.

(** [cls._start_server(socket_handler)]. *)
Definition _start_server (c : cls) (socket_handler : closure) : M unit :=
  match c with
  | SocketDummyServer => SocketDummyServer__start_server c socket_handler
  | IPV4SocketDummyServer =>
      IPV4SocketDummyServer__start_server c socket_handler
  | DelayedCloseSocketDummyServer | FTPSocketDummyServer =>
      DelayedCloseSocketDummyServer__start_server c socket_handler
  end.

(** [start_response_handler] of [SocketDummyServer] and of
    [DelayedCloseSocketDummyServer] (the same text). *)
Definition SocketDummyServer_start_response_handler (c : cls)
  (response : bytes) (num : Z) (block_send : option nat) : M nat :=
  ready_event <- new_event ;;
  _start_server c (response_handler ready_event response num block_send) ;;;
  ret ready_event.

Definition FTPSocketDummyServer_start_response_handler (c : cls)
  (response : bytes) (num : Z) (block_send : option nat)
  (welcome_first user_resp type_i_resp pasv_resp : option bytes) : M nat :=
  ready_event <- new_event ;;
  _start_server c (ftp_handler ready_event response num block_send
                     welcome_first user_resp type_i_resp pasv_resp) ;;;
  ret ready_event.

(** [cls.start_response_handler(response, num, block_send)]. *)
Definition start_response_handler (c : cls) (response : bytes) (num : Z)
  (block_send : option nat) : M nat :=
  match c with
  | FTPSocketDummyServer =>
      FTPSocketDummyServer_start_response_handler c response num block_send
        (Some welcome_first_default) (Some user_resp_default)
        (Some type_i_resp_default) (Some pasv_resp_default)
  | _ => SocketDummyServer_start_response_handler c response num block_send
  end.

(** [for sock in socks: sock.close()]. *)
Fixpoint close_all (socks : list nat) : M unit :=
  match socks with
  | [] => ret tt
  | sock :: rest => close sock ;;; close_all rest
  end.

(** [DelayedCloseSocketDummyServer.cleanup]. *)
Definition cleanup (c : cls) : M unit :=
  w <- get ;;
  match getattr cd_socks c w with
  | Some l => socks <- list_items l ;; close_all socks
  | None => raise
  end.

(** ** Running a test *)

(** The clients of a test connect once [start_response_handler] has given
    them the port. *)
Definition connect (clients : list (list bytes)) : M unit :=
  modify (set_backlog (fun q => q ++ clients)).

(** The server thread of the class runs on. *)
Definition serve (fuel : nat) (c : cls) : M unit :=
  w <- get ;;
  match getattr cd_server_thread c w with
  | Some t => Thread_resume fuel t
  | None => raise
  end.

(** The state after the module is loaded, before any harness is started:
    [SocketDummyServer.socks] is the empty list made in the class body. *)
Definition initial_classes (c : cls) : cls_dict :=
  match c with
  | SocketDummyServer => mk_cls_dict None (Some 0%nat) None
  | _ => mk_cls_dict None None None
  end.

Definition initial (o : os) (use_ipv6 : bool) (events : list bool)
  (releases : nat) : world :=
  mk_world o use_ipv6 [] events [[]] [] initial_classes [] releases [].

(** ** Notions used in the statements *)


(** The reads left on a connection after the first one that ends with the
    terminator. *)
Fixpoint unread (reads : list bytes) : list bytes :=
  match reads with
  | [] => []
  | data :: rest => if endswith data crlf then rest else unread rest
  end.

(** Some read of the client ends with the terminator. *)
Definition has_request (reads : list bytes) : bool :=
  existsb (fun data => endswith data crlf) reads.


(** A system where every call succeeds, and a world with a single open
    connection whose peer sends the given reads and then closes. *)
Definition linux : os :=
  mk_os true (fun _ => true) (fun _ _ => Some 40000) false.

Definition one_conn (reads : list bytes) : world :=
  mk_world linux true [mk_sock AF_INET (Some 40000) false false reads []]
    [] [[]] [] initial_classes [] 0 [].

(** The event that a handler sets at each iteration, and its gate. *)
Definition closure_event (h : closure) : nat :=
  match h with
  | response_handler ready_event _ _ _ => ready_event
  | ftp_handler ready_event _ _ _ _ _ _ _ => ready_event
  end.

Definition closure_gate (h : closure) : option nat :=
  match h with
  | response_handler _ _ _ block_send => block_send
  | ftp_handler _ _ _ block_send _ _ _ _ => block_send
  end.

(** The actions a handler can take on the listening socket [l]. *)
Definition handler_action (h : closure) (l : nat) (a : action) : Prop :=
  match a with
  | ASet e => e = closure_event h
  | ARelease e | AWait e | AClear e => closure_gate h = Some e
  | AAccept l' _ => l' = l
  | ASend _ _ => True
  | _ => False
  end.

(** [m] only adds actions that satisfy [P] to the trace, however it ends. *)
Definition emits {A} (P : action -> Prop) (m : M A) : Prop :=
  forall w, exists ext,
    w_trace (final (m w)) = w_trace w ++ ext /\ Forall P ext.

(** The family a thread opens its socket in. *)
Definition thread_family (th : thread) (w : world) : family :=
  if USE_IPV6 th w then AF_INET6 else AF_INET.

(** What [SocketServerThread._start_server] does before it calls the
    handler, when nothing fails: [s] is the new socket, [p] its port. *)
Definition listen_actions (self : nat) (th : thread) (w : world) (s : nat)
  (p : Z) : list action :=
  (if USE_IPV6 th w then [] else [AWarn])
  ++ [ASocket s (thread_family th w)]
  ++ (if os_win32 (w_os w) then [] else [ASetsockopt s])
  ++ [ABind s (t_host th) p; AStorePort self p; AListen s].

Definition ready_actions (ready_event : option nat) : list action :=
  match ready_event with
  | Some e => [ASet e]
  | None => []
  end.

(** A system on which [bind] fails for every host. *)
Definition no_bind : os :=
  mk_os true (fun _ => true) (fun _ _ => None) false.

(** A world with one thread of class [k]: event 0 is the one the handler
    sets at each iteration, event 1 the ready event given to the thread. *)
Definition one_thread (o : os) (k : thread_class) (response : bytes)
  (num : Z) : world :=
  final (Thread_init k (response_handler 0 response num None) host
           (Some 1%nat) (initial o true [false; false] 0)).

(** One iteration of the loop of a handler. *)
Definition response_iteration (fuel : nat) (ready_event : nat)
  (response : bytes) (block_send : option nat) (listener socks : nat)
  : M unit :=
  event_set ready_event ;;;
  sock <- accept listener ;;
  consume_socket fuel sock default_chunks ;;;
  gate block_send ;;;
  send sock response ;;;
  list_append socks sock.

Definition ftp_iteration (fuel : nat) (ready_event : nat) (response : bytes)
  (block_send : option nat)
  (welcome_first user_resp type_i_resp pasv_resp : option bytes)
  (listener socks : nat) : M unit :=
  event_set ready_event ;;;
  sock <- accept listener ;;
  send_if sock welcome_first ;;;
  consume_socket fuel sock default_chunks ;;;
  send_if sock user_resp ;;;
  consume_socket fuel sock default_chunks ;;;
  send_if sock type_i_resp ;;;
  consume_socket fuel sock default_chunks ;;;
  send_if sock pasv_resp ;;;
  gate block_send ;;;
  send sock response ;;;
  list_append socks sock.

(** The connections accepted and the payloads sent, in order. *)
Definition accepted (t : list action) : list nat :=
  omap (fun a => match a with AAccept _ s => Some s | _ => None end) t.

Definition sent (t : list action) : list (nat * bytes) :=
  omap (fun a => match a with ASend s d => Some (s, d) | _ => None end) t.

(** The payloads of the handshake steps that are sent. *)
Definition step_payloads (steps : list (option bytes)) : list bytes :=
  omap (fun p => if truthy p then p else None) steps.

(** The connection of a client once the response handler is done with it:
    its first request is read and [response] is sent. *)
Definition served (response : bytes) (lo : sockobj) (reads : list bytes)
  : sockobj :=
  sock_sent response (sock_inbox (unread reads) (conn_sock lo reads)).

(** Clients that each send a terminated request within [fuel] reads. *)
Definition well_behaved (fuel : nat) (clients : list (list bytes)) : Prop :=
  Forall (fun reads => has_request reads = true
                       /\ (length reads <= fuel)%nat) clients.

(** The gate, if there is one, is released once for each iteration. *)
Definition released (g : option nat) (n : nat) (w : world) : Prop :=
  g = None \/ (n <= w_releases w)%nat.



(** A world in which socket 0 listens and the given clients connect. *)
Definition listening (clients : list (list bytes)) (events : list bool)
  (releases : nat) : world :=
  mk_world linux true [mk_sock AF_INET (Some 40000) true false [] []]
    events [[]] [] initial_classes clients releases [].

(** What one gated iteration may add to the trace: if it sends at all, it
    has accepted the connection, waited on the gate [e] (after a release by
    the test when the gate was clear at the start), cleared the gate, and
    only then sent the response on that connection. *)
Definition gated_iteration (r e l : nat) (response : bytes) (gate_set : bool)
  (ext : list action) : Prop :=
  forall s d, ASend s d ∈ ext ->
    d = response /\
    ext = [ASet r; AAccept l s]
          ++ (if gate_set then [] else [ARelease e])
          ++ [AWait e; AClear e; ASend s response].

(** The iterations of a gated run: the first starts with the gate as the
    test left it, each later one with the gate clear. *)
Definition gated_run (r e l : nat) (response : bytes) (gate_set : bool)
  (exts : list (list action)) : Prop :=
  match exts with
  | [] => True
  | first :: later =>
      gated_iteration r e l response gate_set first /\
      Forall (gated_iteration r e l response false) later
  end.

(** The outcome of one gated iteration started in [w]: what it added to the
    trace is a gated iteration, and if it returned the gate is clear
    again. *)
Definition gated_outcome (r e l : nat) (response : bytes) (w : world)
  (o : outcome unit) : Prop :=
  exists ext,
    w_trace (final o) = w_trace w ++ ext /\
    gated_iteration r e l response (event_flag e w) ext /\
    (forall w', o = Done tt w' -> event_flag e w' = false).

(** ** Test scenarios *)

Definition transfer_complete : bytes := b "226 Transfer Complete." ++ crlf.

(** One client of the delayed-close harness: start, connect, let the thread
    serve, clean up. *)
Definition delayed_close_test : outcome unit :=
  (start_response_handler DelayedCloseSocketDummyServer transfer_complete 1
     None ;;;
   connect [[b "RETR file" ++ crlf]] ;;;
   serve 1 DelayedCloseSocketDummyServer ;;;
   cleanup DelayedCloseSocketDummyServer) (initial linux true [] 0).




(** The state after the module is loaded on [linux]: both probes succeed
    and [USE_IPV6] is true. *)
Definition imported : world :=
  final (import_server (initial linux false [] 0)).

Definition two_clients : list (list bytes) :=
  [[b "RETR a" ++ crlf]; [b "RETR"; b " b" ++ crlf]].

Definition ftp_session : list bytes :=
  [b "USER anonymous" ++ crlf; b "TYPE I" ++ crlf; b "PASV" ++ crlf;
   b "RETR file" ++ crlf].


(** ** Notions used in the further properties *)

(** The family of a thread that has no [USE_IPV6] of its own. *)
Definition class_family (w : world) : family :=
  if w_USE_IPV6 w then AF_INET6 else AF_INET.

(** The lists that the constructor of a thread of class [k] makes. *)
Definition init_lists (k : thread_class) : list (list nat) :=
  match k with
  | SocketServerThread => []
  | DelayedSocketServerThread => [[]]
  end.

(** [self.socks] of a new thread of class [k] made in [w]. *)
Definition init_socks (k : thread_class) (w : world) : option nat :=
  match k with
  | SocketServerThread => None
  | DelayedSocketServerThread => Some (length (w_lists w))
  end.

(** The family in which the harness class [c] opens its socket. *)
Definition harness_family (c : cls) (w : world) : family :=
  match c with
  | IPV4SocketDummyServer => AF_INET
  | _ => class_family w
  end.

(** What a thread has done when creating or binding its socket failed. *)
Definition failed_listen_actions (f : family) (w : world) : list action :=
  (match f with AF_INET6 => [] | AF_INET => [AWarn] end)
  ++ (if os_socket_ok (w_os w) f
      then ASocket (length (w_socks w)) f
           :: (if os_win32 (w_os w) then []
               else [ASetsockopt (length (w_socks w))])
      else []).

(** The socket such a thread leaves behind, if it got as far as making
    one. *)
Definition failed_listen_socks (f : family) (w : world) : list sockobj :=
  if os_socket_ok (w_os w) f then [new_sock f] else [].

(** The number of iterations a handler was built for. *)
Definition closure_num (h : closure) : Z :=
  match h with
  | response_handler _ _ num _ => num
  | ftp_handler _ _ num _ _ _ _ _ => num
  end.

(** What the gate of a handler adds to the trace of an iteration that
    returns: nothing without a gate; with a gate, the return of [wait],
    after a release by the test when the gate was clear, and [clear]. *)
Definition gate_segment (g : option nat) (seg : list action) : Prop :=
  match g with
  | None => seg = []
  | Some e => seg = [AWait e; AClear e]
              \/ seg = [ARelease e; AWait e; AClear e]
  end.

(** The actions of one returned iteration on the connection [s]: the
    handshake payloads [steps] (none for the response handler), the gate,
    the response. *)
Definition connection_actions (r l : nat) (steps : list bytes)
  (response : bytes) (s : nat) (seg : list action) : list action :=
  [ASet r; AAccept l s] ++ map (ASend s) steps ++ seg
  ++ [ASend s response].



(** Whether an IPv6 socket can be created and bound to [host]. *)
Definition can_bind_ipv6 (o : os) (host : string) : bool :=
  os_has_ipv6 o && os_socket_ok o AF_INET6
  && bool_decide (is_Some (os_bind o AF_INET6 host)).

(** * Properties *)

(** ** Reading the outcome of a sequence *)

Lemma bind_Done {A B} (m : M A) (k : A -> M B) w v w' :
  bind m k w = Done v w' ->
  exists a w1, m w = Done a w1 /\ k a w1 = Done v w'.
Proof.
  unfold bind. destruct (m w) as [a w1|r w1]; [eauto | discriminate].
Qed.

Lemma bind_eq_Done {A B} (m : M A) (k : A -> M B) w a w1 :
  m w = Done a w1 -> bind m k w = k a w1.
Proof. unfold bind. intros ->. reflexivity. Qed.

Lemma bind_eq_Stop {A B} (m : M A) (k : A -> M B) w r w1 :
  m w = Stop r w1 -> bind m k w = Stop r w1.
Proof. unfold bind. intros ->. reflexivity. Qed.


(** Projections of an updated world. *)
Ltac wsimpl :=
  cbn [log set_socks set_events set_lists set_threads set_classes set_backlog
       set_releases set_USE_IPV6 w_os w_USE_IPV6 w_socks w_events w_lists
       w_threads w_classes w_backlog w_releases w_trace] in *.

(** Membership in a list that is written out. *)
Ltac elem_here :=
  repeat first [apply list_elem_of_here | apply list_elem_of_further].

Ltac elem_cases H :=
  repeat (apply elem_of_cons in H as [H|H]);
  try (apply elem_of_nil in H; contradiction);
  try discriminate H.

(** Fields of an updated socket. *)
Ltac ssimpl :=
  cbn [new_sock conn_sock sock_bound sock_listening sock_inbox sock_sent
       sock_closed s_family s_bound s_listening s_closed s_inbox s_sent
       default] in *.
(** ** [endswith] *)

Lemma endswith_nil : endswith [] crlf = false.
Proof. reflexivity. Qed.

Lemma endswith_app_crlf (s : bytes) : endswith (s ++ crlf) crlf = true.
Proof.
  unfold endswith. rewrite length_app.
  change (length crlf) with 2%nat.
  replace (length s + 2 - 2)%nat with (length s) by lia.
  rewrite drop_app_length. rewrite bool_decide_eq_true_2 by reflexivity.
  rewrite andb_true_r. apply Nat.leb_le. lia.
Qed.

Lemma endswith_inv (s : bytes) :
  endswith s crlf = true -> exists s', s = s' ++ crlf.
Proof.
  unfold endswith. intros H. apply andb_true_iff in H as [_ H].
  apply bool_decide_eq_true_1 in H.
  exists (take (length s - length crlf) s).
  transitivity (take (length s - length crlf) s
                ++ drop (length s - length crlf) s).
  - symmetry. apply take_drop.
  - f_equal. exact H.
Qed.

(** A read that ends with CR does not end with the terminator. *)
Lemma endswith_CR (s : bytes) : endswith (s ++ [CR]) crlf = false.
Proof.
  destruct (endswith (s ++ [CR]) crlf) eqn:E; [|reflexivity].
  apply endswith_inv in E as [s' E].
  change crlf with ([CR] ++ [LF]) in E. rewrite app_assoc in E.
  apply app_inj_tail in E as [_ E]. discriminate.
Qed.

(** A leading LF does not count: only what follows it decides. *)
Lemma endswith_LF (s : bytes) : endswith (LF :: s) crlf = endswith s crlf.
Proof.
  destruct s as [|c1 [|c2 s]]; [reflexivity | reflexivity |].
  unfold endswith. change (length crlf) with 2%nat. cbn [length].
  replace (S (S (S (length s))) - 2)%nat
    with (S (S (S (length s)) - 2))%nat by lia.
  reflexivity.
Qed.

(** ** [consume_socket] *)

Lemma set_socks_twice f g w :
  set_socks f (set_socks g w) = set_socks (fun l => f (g l)) w.
Proof. reflexivity. Qed.

Lemma consume_socket_ok fuel : forall sock chunks w so,
  w_socks w !! sock = Some so ->
  s_closed so = false ->
  has_request (s_inbox so) = true ->
  (length (s_inbox so) <= fuel)%nat ->
  consume_socket fuel sock chunks w
  = Done tt (set_socks <[sock := sock_inbox (unread (s_inbox so)) so]> w).
Proof.
  induction fuel as [|fuel IH]; intros sock chunks w so Hso Hop Hreq Hlen.
  - destruct (s_inbox so); [discriminate | simpl in Hlen; lia].
  - cbn [consume_socket]. unfold bind, recv. rewrite Hso, Hop.
    destruct (s_inbox so) as [|data rest] eqn:Hin; [discriminate|].
    cbn [unread]. simpl in Hreq.
    destruct (endswith data crlf) eqn:E; [reflexivity|].
    simpl in Hreq, Hlen.
    rewrite (IH sock chunks _ (sock_inbox rest so)).
    + rewrite set_socks_twice. cbn [sock_inbox s_inbox]. f_equal.
      unfold set_socks. f_equal. apply list_insert_insert_eq.
    + cbn [set_socks w_socks]. apply list_lookup_insert_eq.
      eapply lookup_lt_Some; eauto.
    + exact Hop.
    + exact Hreq.
    + simpl. lia.
Qed.

Lemma consume_socket_Done fuel : forall sock chunks w w',
  consume_socket fuel sock chunks w = Done tt w' ->
  exists so n data,
    w_socks w !! sock = Some so /\
    s_inbox so !! n = Some data /\
    endswith data crlf = true /\
    (forall i d, (i < n)%nat -> s_inbox so !! i = Some d ->
                 endswith d crlf = false) /\
    w' = set_socks <[sock := sock_inbox (drop (S n) (s_inbox so)) so]> w.
Proof.
  induction fuel as [|fuel IH]; intros sock chunks w w' H; [discriminate|].
  cbn [consume_socket] in H. unfold bind, recv in H.
  destruct (w_socks w !! sock) as [so|] eqn:Hso; [|discriminate].
  destruct (s_closed so) eqn:Hop; [discriminate|].
  destruct (s_inbox so) as [|data rest] eqn:Hin.
  - rewrite endswith_nil in H. apply IH in H as (so' & n & d & H1 & H2 & _).
    rewrite Hso in H1. injection H1 as <-. rewrite Hin in H2. discriminate.
  - destruct (endswith data crlf) eqn:E.
    + injection H as <-. exists so, 0%nat, data. rewrite Hin.
      split_and!; try done. intros; lia.
    + apply IH in H as (so' & n & d & H1 & H2 & H3 & H4 & ->).
      cbn [set_socks w_socks] in H1.
      rewrite list_lookup_insert_eq in H1 by (eapply lookup_lt_Some; eauto).
      injection H1 as <-. cbn [sock_inbox s_inbox] in *.
      exists so, (S n), d. rewrite Hin. split_and!; try done.
      * intros i d' Hi Hd. destruct i as [|i]; simpl in Hd.
        -- injection Hd as <-. exact E.
        -- eapply H4; [|exact Hd]. lia.
      * rewrite set_socks_twice. unfold set_socks. f_equal.
        apply list_insert_insert_eq.
Qed.

(** Once the peer has closed without a terminated read, every further read
    is empty and the loop goes on. *)
Lemma consume_socket_spins fuel : forall sock chunks w so,
  w_socks w !! sock = Some so ->
  s_closed so = false ->
  has_request (s_inbox so) = false ->
  exists w', consume_socket fuel sock chunks w = Stop Spin w'.
Proof.
  induction fuel as [|fuel IH]; intros sock chunks w so Hso Hop Hreq.
  - eexists; reflexivity.
  - cbn [consume_socket]. unfold bind, recv. rewrite Hso, Hop.
    destruct (s_inbox so) as [|data rest] eqn:Hin.
    + rewrite endswith_nil. eapply IH; eauto. by rewrite Hin.
    + simpl in Hreq. apply orb_false_iff in Hreq as [-> Hreq].
      eapply (IH _ _ _ (sock_inbox rest so)); [| exact Hop | exact Hreq].
      cbn [set_socks w_socks]. apply list_lookup_insert_eq.
      eapply lookup_lt_Some; eauto.
Qed.

(** C10: the drain returns only on a read that itself ends with CR LF, and
    it consumes the reads up to that one; when the terminator is split, CR
    ending one read and LF starting the next, the first read fails the test,
    the LF adds nothing to the test of the second, and with nothing else
    terminated in the second read the drain goes on with the reads after
    both. *)
Theorem consume_socket_single_read fuel sock chunks w :
  (forall w', consume_socket fuel sock chunks w = Done tt w' ->
     exists so n data,
       w_socks w !! sock = Some so /\
       s_inbox so !! n = Some data /\
       endswith data crlf = true /\
       (forall i d, (i < n)%nat -> s_inbox so !! i = Some d ->
                    endswith d crlf = false) /\
       w' = set_socks <[sock := sock_inbox (drop (S n) (s_inbox so)) so]> w)
  /\
  (forall so first second rest,
     w_socks w !! sock = Some so ->
     s_closed so = false ->
     s_inbox so = (first ++ [CR]) :: (LF :: second) :: rest ->
     endswith (first ++ [CR]) crlf = false /\
     endswith (LF :: second) crlf = endswith second crlf /\
     (endswith second crlf = false ->
      consume_socket (S (S fuel)) sock chunks w
      = consume_socket fuel sock chunks
          (set_socks <[sock := sock_inbox rest so]> w))).
Proof.
  split; [apply consume_socket_Done|].
  intros so first second rest Hso Hop Hin.
  split; [apply endswith_CR|]. split; [apply endswith_LF|]. intros Hsnd.
  assert (Hlt : (sock < length (w_socks w))%nat)
    by (eapply lookup_lt_Some; eauto).
  cbn [consume_socket]. unfold bind at 1. unfold recv at 1.
  rewrite Hso, Hop, Hin, endswith_CR.
  unfold bind at 1. unfold recv at 1. cbn [set_socks w_socks].
  rewrite list_lookup_insert_eq by exact Hlt.
  cbn [sock_inbox s_closed s_inbox]. rewrite Hop, endswith_LF, Hsnd.
  rewrite set_socks_twice. f_equal. unfold set_socks. f_equal.
  rewrite list_insert_insert_eq. reflexivity.
Qed.

Lemma consume_socket_single_read_witness :
  (exists so n data,
     w_socks (one_conn [b "USER a" ++ [CR]; [LF]; b "PASS b" ++ crlf])
       !! 0%nat = Some so /\
     s_inbox so !! n = Some data /\ endswith data crlf = true)
  /\ consume_socket 2 0 default_chunks
       (one_conn [b "USER a" ++ [CR]; [LF]])
     = consume_socket 0 0 default_chunks (one_conn []).
Proof.
  split.
  - destruct (consume_socket_single_read 3 0 default_chunks
                (one_conn [b "USER a" ++ [CR]; [LF]; b "PASS b" ++ crlf]))
      as [H _].
    destruct (H (one_conn [])) as (so & n & data & H1 & H2 & H3 & _);
      [vm_compute; reflexivity|].
    exists so, n, data. auto.
  - destruct (consume_socket_single_read 0 0 default_chunks
                (one_conn [b "USER a" ++ [CR]; [LF]])) as [_ H].
    destruct (H (mk_sock AF_INET (Some 40000) false false
                   [b "USER a" ++ [CR]; [LF]] []) (b "USER a") [] [])
      as (_ & _ & H3); [reflexivity | reflexivity | reflexivity |].
    apply H3. reflexivity.
Defined.

(** C2 at its failing input: a peer that sends an unterminated request and
    closes.  Whatever the fuel, the drain is still looping. *)
Theorem consume_socket_end_of_stream fuel :
  exists w', consume_socket fuel 0 default_chunks
               (one_conn [b "USER anonymous"]) = Stop Spin w'.
Proof.
  eapply consume_socket_spins; reflexivity.
Qed.

(** ** [_has_ipv6] *)

Lemma lookup_new {A} (l : list A) (x : A) : (l ++ [x]) !! length l = Some x.
Proof. by rewrite list_lookup_middle. Qed.

Lemma insert_new {A} (l : list A) (x y : A) :
  <[length l := y]> (l ++ [x]) = l ++ [y].
Proof.
  rewrite insert_app_r_alt by lia. by rewrite Nat.sub_diag.
Qed.

(** C7: the probe always returns; it returns true exactly when it created
    an IPv6 socket and bound it to the host; and a socket it created is
    closed when it returns. *)
Theorem has_ipv6_probe host w :
  exists r w' ext,
    _has_ipv6 host w = Done r w' /\
    w_trace w' = w_trace w ++ ext /\
    (r = true <->
     exists s p, ASocket s AF_INET6 ∈ ext /\ ABind s host p ∈ ext) /\
    (forall s f, ASocket s f ∈ ext ->
       AClose s ∈ ext /\
       exists so, w_socks w' !! s = Some so /\ s_closed so = true) /\
    r = os_has_ipv6 (w_os w) && os_socket_ok (w_os w) AF_INET6
        && bool_decide (is_Some (os_bind (w_os w) AF_INET6 host)).
Proof.
  unfold _has_ipv6, bind, get, catch, socket_socket.
  destruct (os_has_ipv6 (w_os w)) eqn:Hhas; cbn [andb].
  2:{ exists false, w, []. split_and!; [done | by rewrite app_nil_r | | | done].
      - split; [done|]. intros (s & p & H & _). by apply elem_of_nil in H.
      - intros s f H. by apply elem_of_nil in H. }
  destruct (os_socket_ok (w_os w) AF_INET6) eqn:Hsock; cbn [andb].
  2:{ exists false, w, []. split_and!; [done | by rewrite app_nil_r | | | done].
      - split; [done|]. intros (s & p & H & _). by apply elem_of_nil in H.
      - intros s f H. by apply elem_of_nil in H. }
  unfold sock_bind. wsimpl. rewrite lookup_new.
  cbn [new_sock s_closed s_family].
  destruct (os_bind (w_os w) AF_INET6 host) as [p|] eqn:Hbind.
  - unfold ret, close. wsimpl. rewrite insert_new, lookup_new.
    eexists true, _, [ASocket (length (w_socks w)) AF_INET6;
                      ABind (length (w_socks w)) host p;
                      AClose (length (w_socks w))].
    split_and!; [reflexivity | | | |].
    + wsimpl. by rewrite <- !app_assoc.
    + split; [|done]. intros _. exists (length (w_socks w)), p.
      split; elem_here.
    + intros s f Hs. wsimpl. elem_cases Hs. injection Hs as -> ->.
      split; [elem_here|]. rewrite !insert_new, lookup_new. eauto.
    + symmetry. apply bool_decide_eq_true_2. eauto.
  - unfold ret, close. wsimpl. rewrite lookup_new.
    eexists false, _, [ASocket (length (w_socks w)) AF_INET6;
                       AClose (length (w_socks w))].
    split_and!; [reflexivity | | | |].
    + wsimpl. by rewrite <- !app_assoc.
    + split; [done|]. intros (s & p & _ & H). elem_cases H.
    + intros s f Hs. wsimpl. elem_cases Hs. injection Hs as -> ->.
      split; [elem_here|]. rewrite !insert_new, lookup_new. eauto.
    + symmetry. apply bool_decide_eq_false_2. by intros [? ?].
Qed.

(** ** What a computation adds to the trace *)

Lemma emits_mono {A} (P Q : action -> Prop) (m : M A) :
  (forall a, P a -> Q a) -> emits P m -> emits Q m.
Proof.
  intros HPQ Hm w. destruct (Hm w) as (ext & Ht & HP).
  exists ext. split; [exact Ht|]. eapply Forall_impl; eauto.
Qed.

Lemma emits_quiet {A} (P : action -> Prop) (m : M A) :
  (forall w, w_trace (final (m w)) = w_trace w) -> emits P m.
Proof.
  intros H w. exists []. rewrite app_nil_r. split; [apply H | constructor].
Qed.

Lemma emits_one {A} (P : action -> Prop) (m : M A) a :
  P a ->
  (forall w, w_trace (final (m w)) = w_trace w
             \/ w_trace (final (m w)) = w_trace w ++ [a]) ->
  emits P m.
Proof.
  intros Ha H w. destruct (H w) as [E|E].
  - exists []. rewrite app_nil_r. split; [exact E | constructor].
  - exists [a]. split; [exact E | by constructor].
Qed.

Lemma emits_bind {A B} (P : action -> Prop) (m : M A) (k : A -> M B) :
  emits P m -> (forall a, emits P (k a)) -> emits P (bind m k).
Proof.
  intros Hm Hk w. unfold bind. destruct (Hm w) as (e1 & Ht1 & HP1).
  destruct (m w) as [a w1|r w1]; simpl in Ht1.
  - destruct (Hk a w1) as (e2 & Ht2 & HP2). exists (e1 ++ e2).
    rewrite Ht2, Ht1, app_assoc. split; [done | by apply Forall_app].
  - exists e1. done.
Qed.

Lemma emits_ret {A} P (a : A) : emits P (ret a).
Proof. by apply emits_quiet. Qed.

Lemma emits_for_range P n body : emits P body -> emits P (for_range n body).
Proof.
  intros Hb. induction n as [|n IH]; simpl.
  - apply emits_ret.
  - apply emits_bind; auto.
Qed.

Lemma emits_event_set P e : P (ASet e) -> emits P (event_set e).
Proof. intros H. apply (emits_one _ _ (ASet e)); auto. Qed.

Lemma emits_event_clear P e : P (AClear e) -> emits P (event_clear e).
Proof. intros H. apply (emits_one _ _ (AClear e)); auto. Qed.

Lemma emits_event_wait P e :
  P (AWait e) -> P (ARelease e) -> emits P (event_wait e).
Proof.
  intros H1 H2 w. unfold event_wait.
  destruct (event_flag e w); [exists [AWait e]; by repeat constructor|].
  destruct (w_releases w).
  - exists []. rewrite app_nil_r. by split.
  - exists [ARelease e; AWait e]. wsimpl. simpl. rewrite <- app_assoc.
    by repeat constructor.
Qed.

Lemma emits_accept P l :
  (forall s, P (AAccept l s)) -> emits P (accept l).
Proof.
  intros H w. unfold accept.
  destruct (w_socks w !! l) as [lo|];
    [|exists []; rewrite app_nil_r; by split].
  destruct (s_closed lo || negb (s_listening lo));
    [exists []; rewrite app_nil_r; by split|].
  destruct (w_backlog w); [exists []; rewrite app_nil_r; by split|].
  eexists [_]. split; [reflexivity | by repeat constructor].
Qed.

Lemma emits_recv P s n : emits P (recv s n).
Proof.
  apply emits_quiet. intros w. unfold recv.
  destruct (w_socks w !! s) as [so|]; [|done].
  destruct (s_closed so); [done|]. by destruct (s_inbox so).
Qed.

Lemma emits_send P s data : P (ASend s data) -> emits P (send s data).
Proof.
  intros H. apply (emits_one _ _ (ASend s data)); [done|].
  intros w. unfold send. destruct (w_socks w !! s) as [so|]; [|by left].
  destruct (s_closed so); [by left | by right].
Qed.

Lemma emits_close P s : P (AClose s) -> emits P (close s).
Proof.
  intros H. apply (emits_one _ _ (AClose s)); [done|].
  intros w. unfold close. destruct (w_socks w !! s); [by right | by left].
Qed.

Lemma emits_list_new P : emits P list_new.
Proof. by apply emits_quiet. Qed.

Lemma emits_list_append P l x : emits P (list_append l x).
Proof.
  apply emits_quiet. intros w. unfold list_append.
  by destruct (w_lists w !! l).
Qed.

Lemma emits_consume_socket P fuel s n : emits P (consume_socket fuel s n).
Proof.
  induction fuel as [|fuel IH]; simpl.
  - by apply emits_quiet.
  - apply emits_bind; [apply emits_recv|]. intros data.
    destruct (endswith data crlf); [apply emits_ret | exact IH].
Qed.

Lemma emits_gate P g :
  (forall e, g = Some e -> P (AWait e) /\ P (ARelease e) /\ P (AClear e)) ->
  emits P (gate g).
Proof.
  intros H. destruct g as [e|]; simpl; [|apply emits_ret].
  destruct (H e eq_refl) as (H1 & H2 & H3).
  apply emits_bind; [by apply emits_event_wait|].
  intros _. by apply emits_event_clear.
Qed.

Lemma emits_send_if P s payload :
  (forall data, P (ASend s data)) -> emits P (send_if s payload).
Proof.
  intros H. unfold send_if.
  destruct (truthy payload); [by apply emits_send | apply emits_ret].
Qed.

(** A handler sets its own event, accepts on the socket it is given, waits
    on and clears its gate, and sends; it does nothing else that shows. *)
Lemma emits_call fuel h l : emits (handler_action h l) (call fuel h l).
Proof.
  destruct h; simpl; unfold socket_handler, ftp_socket_handler.
  - apply emits_bind; [apply emits_list_new|]. intros socks.
    apply emits_bind; [|intros; apply emits_ret].
    apply emits_for_range.
    apply emits_bind; [by apply emits_event_set|]. intros _.
    apply emits_bind; [by apply emits_accept|]. intros sock.
    apply emits_bind; [apply emits_consume_socket|]. intros _.
    apply emits_bind; [apply emits_gate; by intros e ->|]. intros _.
    apply emits_bind; [by apply emits_send|]. intros _.
    apply emits_list_append.
  - apply emits_bind; [apply emits_list_new|]. intros socks.
    apply emits_bind; [|intros; apply emits_ret].
    apply emits_for_range.
    apply emits_bind; [by apply emits_event_set|]. intros _.
    apply emits_bind; [by apply emits_accept|]. intros sock.
    apply emits_bind; [by apply emits_send_if|]. intros _.
    apply emits_bind; [apply emits_consume_socket|]. intros _.
    apply emits_bind; [by apply emits_send_if|]. intros _.
    apply emits_bind; [apply emits_consume_socket|]. intros _.
    apply emits_bind; [by apply emits_send_if|]. intros _.
    apply emits_bind; [apply emits_consume_socket|]. intros _.
    apply emits_bind; [by apply emits_send_if|]. intros _.
    apply emits_bind; [apply emits_gate; by intros e ->|]. intros _.
    apply emits_bind; [by apply emits_send|]. intros _.
    apply emits_list_append.
Qed.

(** ** The server thread *)

Lemma listen_ok self th w p :
  w_threads w !! self = Some th ->
  os_socket_ok (w_os w) (thread_family th w) = true ->
  os_bind (w_os w) (thread_family th w) (t_host th) = Some p ->
  exists w1,
    SocketServerThread_listen self w = Done (length (w_socks w)) w1 /\
    w_trace w1 = w_trace w
                 ++ listen_actions self th w (length (w_socks w)) p
                 ++ ready_actions (t_ready_event th) /\
    w_socks w1 = w_socks w
                 ++ [mk_sock (thread_family th w) (Some p) true false [] []] /\
    w_threads w1 = <[self := with_port p th]> (w_threads w) /\
    w_events w1 = match t_ready_event th with
                  | Some e => <[e := true]> (w_events w)
                  | None => w_events w
                  end /\
    w_lists w1 = w_lists w /\ w_backlog w1 = w_backlog w /\
    w_releases w1 = w_releases w /\ w_classes w1 = w_classes w /\
    w_os w1 = w_os w /\ w_USE_IPV6 w1 = w_USE_IPV6 w.
Proof.
  intros Hth Hsock Hbind.
  unfold SocketServerThread_listen, listen_actions, thread_family in *.
  unfold bind, get_thread, get. rewrite Hth.
  destruct (USE_IPV6 th w) eqn:Huse;
    unfold warn, modify, socket_socket; wsimpl; rewrite Hsock;
    destruct (os_win32 (w_os w)) eqn:Hwin; unfold setsockopt, ret, modify;
    unfold sock_bind; wsimpl; rewrite lookup_new;
    ssimpl; rewrite Hbind;
    unfold getsockname_port; wsimpl; rewrite insert_new, lookup_new;
    ssimpl; unfold set_thread; wsimpl;
    rewrite Hth; unfold sock_listen; wsimpl; rewrite ?insert_new, lookup_new;
    ssimpl; destruct (t_ready_event th) as [e|];
    unfold event_set, modify; eexists; (split; [reflexivity|]); wsimpl;
    rewrite ?insert_new; cbn [app]; rewrite <- ?app_assoc; cbn [app];
    split_and!; reflexivity.
Qed.

Lemma listen_fails self th w :
  w_threads w !! self = Some th ->
  os_socket_ok (w_os w) (thread_family th w) = false
  \/ os_bind (w_os w) (thread_family th w) (t_host th) = None ->
  exists w' ext,
    SocketServerThread_listen self w = Stop Raise w' /\
    w_trace w' = w_trace w ++ ext /\
    (forall e, ASet e ∉ ext).
Proof.
  intros Hth Hfail.
  unfold SocketServerThread_listen, thread_family in *.
  unfold bind, get_thread, get. rewrite Hth.
  destruct (USE_IPV6 th w) eqn:Huse;
    unfold warn, modify, socket_socket; wsimpl.
  - destruct (os_socket_ok (w_os w) AF_INET6) eqn:Hsock.
    + destruct Hfail as [Hfail|Hbind]; [discriminate|].
      destruct (os_win32 (w_os w)) eqn:Hwin; unfold setsockopt, ret, modify;
        unfold sock_bind; wsimpl; rewrite lookup_new; ssimpl; rewrite Hbind.
      * exists (log (ASocket (length (w_socks w)) AF_INET6)
                  (set_socks (fun l => l ++ [new_sock AF_INET6]) w)),
               [ASocket (length (w_socks w)) AF_INET6].
        split_and!; [done | done | intros e H; elem_cases H].
      * eexists _, [ASocket (length (w_socks w)) AF_INET6;
                    ASetsockopt (length (w_socks w))].
        split_and!; [done | wsimpl; by rewrite <- app_assoc
                    | intros e H; elem_cases H].
    + exists w, []. rewrite app_nil_r.
      split_and!; [done | done | intros e H; elem_cases H].
  - destruct (os_socket_ok (w_os w) AF_INET) eqn:Hsock.
    + destruct Hfail as [Hfail|Hbind]; [discriminate|].
      destruct (os_win32 (w_os w)) eqn:Hwin; unfold setsockopt, ret, modify;
        unfold sock_bind; wsimpl; rewrite lookup_new; ssimpl; rewrite Hbind.
      * eexists _, [AWarn; ASocket (length (w_socks w)) AF_INET].
        split_and!; [done | wsimpl; by rewrite <- app_assoc
                    | intros e H; elem_cases H].
      * eexists _, [AWarn; ASocket (length (w_socks w)) AF_INET;
                    ASetsockopt (length (w_socks w))].
        split_and!; [done | wsimpl; by rewrite <- !app_assoc
                    | intros e H; elem_cases H].
    + eexists _, [AWarn].
      split_and!; [done | done | intros e H; elem_cases H].
Qed.

Lemma handle_socket_emits fuel self sock w th :
  w_threads w !! self = Some th ->
  exists ext,
    w_trace (final (_handle_socket fuel self sock w)) = w_trace w ++ ext /\
    Forall (fun a => handler_action (t_socket_handler th) sock a
                     \/ a = AClose sock) ext.
Proof.
  intros Hth. unfold _handle_socket. unfold bind at 1, get_thread at 1.
  rewrite Hth.
  destruct (t_class th).
  - unfold SocketServerThread__handle_socket.
    unfold bind at 1, get_thread at 1. rewrite Hth.
    apply emits_bind.
    + eapply emits_mono; [|apply emits_call]. auto.
    + intros _. apply emits_close. auto.
  - unfold DelayedSocketServerThread__handle_socket.
    unfold bind at 1, get_thread at 1. rewrite Hth.
    apply emits_bind.
    + eapply emits_mono; [|apply emits_call]. auto.
    + intros socks. apply emits_quiet. intros w'. unfold set_thread.
      by destruct (w_threads w' !! self).
Qed.

(** C3, as amended: when the socket is created and bound, the thread sets
    its ready event once, after it has bound the socket, stored the port and
    called listen, and before any accept; the handler, which sets an event
    of its own, does not set it again.  When creating or binding the socket
    raises, the thread ends with the exception and never sets the event. *)
Theorem ready_event_set_once fuel self th e w :
  w_threads w !! self = Some th ->
  t_ready_event th = Some e ->
  closure_event (t_socket_handler th) <> e ->
  (forall p,
     os_socket_ok (w_os w) (thread_family th w) = true ->
     os_bind (w_os w) (thread_family th w) (t_host th) = Some p ->
     exists pre post,
       w_trace (final (run fuel self w))
       = w_trace w ++ pre ++ ASet e :: post /\
       pre = listen_actions self th w (length (w_socks w)) p /\
       ABind (length (w_socks w)) (t_host th) p ∈ pre /\
       AStorePort self p ∈ pre /\
       AListen (length (w_socks w)) ∈ pre /\
       (ASet e ∉ pre) /\ (ASet e ∉ post) /\
       (forall l s, AAccept l s ∉ pre)) /\
  (os_socket_ok (w_os w) (thread_family th w) = false
   \/ os_bind (w_os w) (thread_family th w) (t_host th) = None ->
   exists w' ext,
     run fuel self w = Stop Raise w' /\
     w_trace w' = w_trace w ++ ext /\
     (ASet e ∉ ext)).
Proof.
  intros Hth Hready Hne. split.
  - intros p Hsock Hbind.
    destruct (listen_ok self th w p Hth Hsock Hbind)
      as (w1 & Hrun & Htr & _ & Hths & _).
    unfold run, SocketServerThread__start_server.
    rewrite (bind_eq_Done _ _ _ _ _ Hrun).
    assert (Hth1 : w_threads w1 !! self = Some (with_port p th)).
    { rewrite Hths. apply list_lookup_insert_eq.
      eapply lookup_lt_Some; eauto. }
    destruct (handle_socket_emits fuel self (length (w_socks w)) w1 _ Hth1)
      as (post & Hpost & Hall).
    exists (listen_actions self th w (length (w_socks w)) p), post.
    rewrite Hpost, Htr, Hready. cbn [ready_actions].
    rewrite <- !app_assoc. split; [reflexivity|]. split; [reflexivity|].
    unfold listen_actions.
    split_and!.
    + rewrite !elem_of_app. right; right; right. elem_here.
    + rewrite !elem_of_app. right; right; right. elem_here.
    + rewrite !elem_of_app. right; right; right. elem_here.
    + rewrite !elem_of_app. intros [H|[H|[H|H]]].
      * destruct (USE_IPV6 th w); elem_cases H.
      * elem_cases H.
      * destruct (os_win32 (w_os w)); elem_cases H.
      * elem_cases H.
    + intros Hin. rewrite Forall_forall in Hall.
      destruct (Hall _ Hin) as [H|H]; [|discriminate].
      cbn in H. congruence.
    + intros l s. rewrite !elem_of_app. intros [H|[H|[H|H]]].
      * destruct (USE_IPV6 th w); elem_cases H.
      * elem_cases H.
      * destruct (os_win32 (w_os w)); elem_cases H.
      * elem_cases H.
  - intros Hfail.
    destruct (listen_fails self th w Hth Hfail) as (w' & ext & Hrun & Ht & Hno).
    exists w', ext. unfold run, SocketServerThread__start_server.
    rewrite (bind_eq_Stop _ _ _ _ _ Hrun). by split_and!.
Qed.

Lemma ready_event_set_once_witness :
  (exists pre post,
     w_trace (final (run 1 0 (one_thread linux SocketServerThread
                                (b "ok") 1)))
     = pre ++ ASet 1 :: post /\
     (ASet 1 ∉ pre) /\ (ASet 1 ∉ post)) /\
  (exists w', run 1 0 (one_thread no_bind SocketServerThread (b "ok") 1)
              = Stop Raise w').
Proof.
  split.
  - destruct (ready_event_set_once 1 0
                (mk_thread SocketServerThread
                   (response_handler 0 (b "ok") 1 None) host (Some 1%nat)
                   None None None None)
                1%nat (one_thread linux SocketServerThread (b "ok") 1))
      as [H _]; [reflexivity | reflexivity | discriminate |].
    destruct (H 40000) as (pre & post & H1 & _ & _ & _ & _ & H2 & H3 & _);
      [reflexivity | reflexivity |].
    exists pre, post. auto.
  - destruct (ready_event_set_once 1 0
                (mk_thread SocketServerThread
                   (response_handler 0 (b "ok") 1 None) host (Some 1%nat)
                   None None None None)
                1%nat (one_thread no_bind SocketServerThread (b "ok") 1))
      as [_ H]; [reflexivity | reflexivity | discriminate |].
    destruct H as (w' & ext & Hrun & _); [right; reflexivity|].
    exists w'. exact Hrun.
Defined.

(** C3 as stated fails when [bind] raises: the thread ends with the
    exception and its ready event is never set. *)
Lemma ready_event_unset_when_bind_fails :
  (exists w', run 1 0 (one_thread no_bind SocketServerThread (b "ok") 1)
              = Stop Raise w')
  /\ ASet 1 ∉ w_trace (final (run 1 0 (one_thread no_bind SocketServerThread
                                           (b "ok") 1))).
Proof.
  split; [eexists; vm_compute; reflexivity|].
  vm_compute w_trace. intros H. elem_cases H.
Qed.

(** ** The iterations of a handler *)

Lemma socket_handler_loop fuel r response num g l :
  socket_handler fuel r response num g l
  = (socks <- list_new ;;
     for_range (Z.to_nat num) (response_iteration fuel r response g l socks) ;;;
     ret socks).
Proof. reflexivity. Qed.

Lemma ftp_socket_handler_loop fuel r response num g p1 p2 p3 p4 l :
  ftp_socket_handler fuel r response num g p1 p2 p3 p4 l
  = (socks <- list_new ;;
     for_range (Z.to_nat num)
       (ftp_iteration fuel r response g p1 p2 p3 p4 l socks) ;;;
     ret socks).
Proof. reflexivity. Qed.

(** The drain touches nothing but the reads of its socket. *)
Lemma consume_socket_frame fuel : forall s n w,
  w_trace (final (consume_socket fuel s n w)) = w_trace w /\
  w_events (final (consume_socket fuel s n w)) = w_events w /\
  w_releases (final (consume_socket fuel s n w)) = w_releases w /\
  w_lists (final (consume_socket fuel s n w)) = w_lists w /\
  w_backlog (final (consume_socket fuel s n w)) = w_backlog w /\
  length (w_socks (final (consume_socket fuel s n w))) = length (w_socks w) /\
  (forall so, w_socks w !! s = Some so ->
     exists rest, w_socks (final (consume_socket fuel s n w)) !! s
                  = Some (sock_inbox rest so)).
Proof.
  induction fuel as [|fuel IH]; intros s n w; cbn [consume_socket].
  - simpl. split_and!; try done. intros so H. exists (s_inbox so).
    by destruct so.
  - unfold bind, recv.
    destruct (w_socks w !! s) as [so|] eqn:Hso;
      [|simpl; split_and!; try done].
    destruct (s_closed so) eqn:Hop.
    { simpl. split_and!; try done. intros ? [= <-]. exists (s_inbox so).
      by destruct so. }
    destruct (s_inbox so) as [|data rest] eqn:Hin.
    + rewrite endswith_nil. rewrite <- Hso. apply IH.
    + assert (Hlt : (s < length (w_socks w))%nat)
        by (eapply lookup_lt_Some; eauto).
      destruct (endswith data crlf).
      * simpl. split_and!; try done; [by rewrite length_insert|].
        intros ? [= <-]. exists rest. by rewrite list_lookup_insert_eq.
      * destruct (IH s n (set_socks <[s := sock_inbox rest so]> w))
          as (H1 & H2 & H3 & H4 & H5 & H6 & H7).
        wsimpl.
        split_and!; try done; [by rewrite H6, length_insert|].
        intros ? [= <-].
        destruct (H7 (sock_inbox rest so)) as (rest' & Hr);
          [by rewrite list_lookup_insert_eq|].
        exists rest'. exact Hr.
Qed.

Lemma response_iteration_ok fuel r response g l L w lo reads rest xs :
  w_socks w !! l = Some lo ->
  s_closed lo = false ->
  s_listening lo = true ->
  w_backlog w = reads :: rest ->
  has_request reads = true ->
  (length reads <= fuel)%nat ->
  (g = None \/ (1 <= w_releases w)%nat) ->
  w_lists w !! L = Some xs ->
  exists w' ext,
    response_iteration fuel r response g l L w = Done tt w' /\
    w_socks w' = w_socks w
      ++ [sock_sent response (sock_inbox (unread reads) (conn_sock lo reads))]
    /\ w_backlog w' = rest
    /\ w_lists w' = <[L := xs ++ [length (w_socks w)]]> (w_lists w)
    /\ w_trace w' = w_trace w ++ ext
    /\ accepted ext = [length (w_socks w)]
    /\ sent ext = [(length (w_socks w), response)]
    /\ (w_releases w - 1 <= w_releases w')%nat
    /\ (g = None -> w_releases w' = w_releases w).
Proof.
  intros Hl Hop Hlis Hb Hreq Hfuel Hg HL.
  unfold response_iteration. unfold bind at 1. unfold event_set, modify.
  unfold bind at 1. unfold accept. wsimpl. rewrite Hl, Hop, Hlis, Hb.
  cbn [orb negb]. unfold bind at 1.
  erewrite consume_socket_ok;
    [| wsimpl; apply lookup_new | reflexivity | exact Hreq | exact Hfuel].
  cbn [conn_sock s_inbox].
  destruct g as [e|].
  - destruct Hg as [Hg|Hg]; [discriminate|].
    unfold bind at 1. unfold gate, bind at 1, event_wait.
    destruct (event_flag e _) eqn:Hflag.
    + unfold event_clear, modify. unfold bind at 1, send. wsimpl.
      rewrite !insert_new, lookup_new. ssimpl. unfold list_append. wsimpl. rewrite HL.
      eexists _, [ASet r; AAccept l (length (w_socks w)); AWait e; AClear e;
                  ASend (length (w_socks w)) response].
      split; [reflexivity|]. wsimpl. rewrite !insert_new.
      rewrite <- !app_assoc. split_and!; try done. lia.
    + wsimpl. destruct (w_releases w) as [|n] eqn:Hrel; [lia|].
      unfold event_clear, modify. unfold bind at 1, send. wsimpl.
      rewrite !insert_new, lookup_new. ssimpl. unfold list_append. wsimpl. rewrite HL.
      eexists _, [ASet r; AAccept l (length (w_socks w)); ARelease e;
                  AWait e; AClear e; ASend (length (w_socks w)) response].
      split; [reflexivity|]. wsimpl. rewrite !insert_new.
      rewrite <- !app_assoc. split_and!; try done. lia.
  - unfold bind at 1. unfold gate, ret. unfold bind at 1, send. wsimpl.
    rewrite !insert_new, lookup_new. ssimpl. unfold list_append. wsimpl. rewrite HL.
    eexists _, [ASet r; AAccept l (length (w_socks w));
                ASend (length (w_socks w)) response].
    split; [reflexivity|]. wsimpl. rewrite !insert_new.
    rewrite <- !app_assoc. split_and!; try done. lia.
Qed.

Lemma response_loop_ok fuel r response g l L lo : forall clients w more xs,
  w_socks w !! l = Some lo ->
  s_closed lo = false ->
  s_listening lo = true ->
  w_backlog w = clients ++ more ->
  well_behaved fuel clients ->
  released g (length clients) w ->
  w_lists w !! L = Some xs ->
  exists w' ext,
    for_range (length clients) (response_iteration fuel r response g l L) w
    = Done tt w' /\
    w_socks w' = w_socks w ++ map (served response lo) clients /\
    w_backlog w' = more /\
    w_lists w'
    = <[L := xs ++ seq (length (w_socks w)) (length clients)]> (w_lists w) /\
    w_trace w' = w_trace w ++ ext /\
    accepted ext = seq (length (w_socks w)) (length clients) /\
    sent ext = map (fun s => (s, response))
                   (seq (length (w_socks w)) (length clients)).
Proof.
  induction clients as [|reads clients IH];
    intros w more xs Hl Hop Hlis Hb Hwb Hrel HL.
  - exists w, []. simpl. rewrite !app_nil_r.
    split_and!; try done. by rewrite list_insert_id.
  - apply Forall_cons in Hwb as [[Hreq Hfuel] Hwb].
    destruct (response_iteration_ok fuel r response g l L w lo reads
                (clients ++ more) xs) as (w1 & e1 & Hrun & Hs1 & Hb1 & HL1
                                          & Ht1 & Ha1 & Hse1 & Hr1 & Hr1');
      try assumption.
    { destruct Hrel as [?|Hrel]; [by left | right; simpl in Hrel; lia]. }
    destruct (IH w1 more (xs ++ [length (w_socks w)]))
      as (w' & e2 & Hrun2 & Hs2 & Hb2 & HL2 & Ht2 & Ha2 & Hse2);
      try assumption.
    { rewrite Hs1. apply lookup_app_l_Some. exact Hl. }
    { destruct Hrel as [->|Hrel]; [by left | right; simpl in Hrel; lia]. }
    { rewrite HL1. apply list_lookup_insert_eq. eapply lookup_lt_Some; eauto. }
    exists w', (e1 ++ e2). cbn [for_range length].
    rewrite (bind_eq_Done _ _ _ _ _ Hrun).
    assert (Hlen : length (w_socks w1) = S (length (w_socks w)))
      by (rewrite Hs1, length_app; simpl; lia).
    rewrite Hlen in *.
    split_and!.
    + exact Hrun2.
    + rewrite Hs2, Hs1, <- app_assoc. reflexivity.
    + exact Hb2.
    + rewrite HL2, HL1, list_insert_insert_eq, <- app_assoc. reflexivity.
    + rewrite Ht2, Ht1, app_assoc. reflexivity.
    + unfold accepted in *. rewrite omap_app, Ha1, Ha2. reflexivity.
    + unfold sent in *. rewrite omap_app, Hse1, Hse2. reflexivity.
Qed.







(** ** The FTP handshake *)



Lemma truthy_Some p : truthy p = true -> exists d, p = Some d.
Proof. destruct p; [eauto | discriminate]. Qed.






Lemma send_Done s d w w' :
  send s d w = Done tt w' ->
  w_trace w' = w_trace w ++ [ASend s d] /\
  length (w_socks w') = length (w_socks w).
Proof.
  unfold send. destruct (w_socks w !! s) as [so|]; [|discriminate].
  destruct (s_closed so); [discriminate|]. intros [= <-]. wsimpl.
  by rewrite length_insert.
Qed.

Lemma send_if_Done s p w w' :
  send_if s p w = Done tt w' ->
  w_trace w' = w_trace w ++ map (ASend s) (step_payloads [p]) /\
  length (w_socks w') = length (w_socks w).
Proof.
  unfold send_if, step_payloads. cbn [omap list_omap].
  destruct (truthy p) eqn:Hp.
  - destruct (truthy_Some _ Hp) as [d ->]. apply send_Done.
  - intros [= <-]. by rewrite app_nil_r.
Qed.

Lemma consume_socket_Done_frame fuel s n w w' :
  consume_socket fuel s n w = Done tt w' ->
  w_trace w' = w_trace w /\ length (w_socks w') = length (w_socks w).
Proof.
  intros H. destruct (consume_socket_frame fuel s n w)
    as (Ht & _ & _ & _ & _ & Hl & _).
  rewrite H in Ht, Hl. by split.
Qed.






(** ** The gate *)

Lemma event_flag_cleared e (flags : list bool) :
  default false (<[e := false]> flags !! e) = false.
Proof.
  destruct (decide (e < length flags)%nat).
  - by rewrite list_lookup_insert_eq.
  - rewrite list_insert_ge by lia. rewrite lookup_ge_None_2 by lia. done.
Qed.

Lemma no_send_gated r e l response flag ext :
  (forall s d, ASend s d ∉ ext) -> gated_iteration r e l response flag ext.
Proof. intros H s d Hin. by apply H in Hin. Qed.

Ltac stopped ext :=
  exists ext; cbv beta iota; cbn [final]; wsimpl;
  rewrite <- ?app_assoc;
  split_and!;
  [ reflexivity
  | apply no_send_gated; let H := fresh in intros ? ? H; elem_cases H
  | let H := fresh in intros ? H; discriminate H ].

Lemma response_iteration_gated fuel r response e l L w :
  r <> e ->
  gated_outcome r e l response w
    (response_iteration fuel r response (Some e) l L w).
Proof.
  intros Hre. unfold response_iteration.
  unfold bind at 1. unfold event_set, modify.
  unfold bind at 1. unfold accept. wsimpl.
  destruct (w_socks w !! l) as [lo|]; [|stopped [ASet r]].
  destruct (s_closed lo || negb (s_listening lo)); [stopped [ASet r]|].
  destruct (w_backlog w) as [|reads rest]; [stopped [ASet r]|].
  cbv beta iota. set (s := length (w_socks w)). unfold bind at 1.
  match goal with |- context [consume_socket fuel s default_chunks ?W] =>
    set (w2 := W) end.
  destruct (consume_socket_frame fuel s default_chunks w2)
    as (Ht & He & Hr & _).
  assert (Hflag : event_flag e (final (consume_socket fuel s default_chunks w2))
                  = event_flag e w).
  { unfold event_flag. rewrite He. subst w2. wsimpl.
    by rewrite list_lookup_insert_ne. }
  assert (Htr : w_trace (final (consume_socket fuel s default_chunks w2))
                = w_trace w ++ [ASet r; AAccept l s]).
  { rewrite Ht. subst w2. wsimpl. by rewrite <- app_assoc. }
  clearbody w2. clear Ht He.
  destruct (consume_socket fuel s default_chunks w2) as [[] w3|rr w3];
    cbn [final] in Htr, Hflag, Hr.
  2:{ exists [ASet r; AAccept l s]. cbn [final]. rewrite Htr.
      split_and!; [done | apply no_send_gated; intros ? d H; elem_cases H
                  | done]. }
  unfold bind at 1. unfold gate. unfold bind at 1. unfold event_wait.
  rewrite Hflag. destruct (event_flag e w) eqn:Hf.
  - unfold event_clear, modify. unfold bind at 1. unfold send. wsimpl.
    destruct (w_socks w3 !! s) as [so|];
      [|exists [ASet r; AAccept l s; AWait e; AClear e]; rewrite Hf;
        cbn [final]; wsimpl; rewrite Htr, <- !app_assoc;
        split_and!; [done | apply no_send_gated; intros ? d H; elem_cases H
                    | done]].
    destruct (s_closed so);
      [exists [ASet r; AAccept l s; AWait e; AClear e]; rewrite Hf;
        cbn [final]; wsimpl; rewrite Htr, <- !app_assoc;
        split_and!; [done | apply no_send_gated; intros ? d H; elem_cases H
                    | done]|].
    exists [ASet r; AAccept l s; AWait e; AClear e; ASend s response].
    rewrite Hf. unfold list_append. wsimpl.
    destruct (w_lists w3 !! L); cbn [final]; wsimpl;
      rewrite Htr, <- !app_assoc;
      (split_and!;
       [ done
       | intros s' d H; elem_cases H; injection H as -> ->; done
       | first [intros w' [= <-] | done] ]).
    unfold event_flag. wsimpl. apply event_flag_cleared.
  - destruct (w_releases w3) as [|n];
      [exists [ASet r; AAccept l s]; cbn [final]; rewrite Htr;
        split_and!; [done | apply no_send_gated; intros ? d H; elem_cases H
                    | done]|].
    unfold event_clear, modify. unfold bind at 1. unfold send. wsimpl.
    destruct (w_socks w3 !! s) as [so|];
      [|exists [ASet r; AAccept l s; ARelease e; AWait e; AClear e];
        rewrite Hf; cbn [final]; wsimpl; rewrite Htr, <- !app_assoc;
        split_and!; [done | apply no_send_gated; intros ? d H; elem_cases H
                    | done]].
    destruct (s_closed so);
      [exists [ASet r; AAccept l s; ARelease e; AWait e; AClear e];
        rewrite Hf; cbn [final]; wsimpl; rewrite Htr, <- !app_assoc;
        split_and!; [done | apply no_send_gated; intros ? d H; elem_cases H
                    | done]|].
    exists [ASet r; AAccept l s; ARelease e; AWait e; AClear e;
            ASend s response].
    rewrite Hf. unfold list_append. wsimpl.
    destruct (w_lists w3 !! L); cbn [final]; wsimpl;
      rewrite Htr, <- !app_assoc;
      (split_and!;
       [ done
       | intros s' d H; elem_cases H; injection H as -> ->; done
       | first [intros w' [= <-] | done] ]).
    unfold event_flag. wsimpl. apply event_flag_cleared.
Qed.

Lemma gated_run_clear r e l response exts :
  gated_run r e l response false exts ->
  Forall (gated_iteration r e l response false) exts.
Proof. destruct exts; [constructor | intros [? ?]; by constructor]. Qed.

Lemma gated_loop fuel r response e l L : r <> e -> forall n w,
  exists exts,
    w_trace (final (for_range n
                      (response_iteration fuel r response (Some e) l L) w))
    = w_trace w ++ concat exts /\
    (length exts <= n)%nat /\
    gated_run r e l response (event_flag e w) exts.
Proof.
  intros Hre. induction n as [|n IH]; intros w.
  - exists []. simpl. by rewrite app_nil_r.
  - cbn [for_range]. unfold bind.
    destruct (response_iteration_gated fuel r response e l L w Hre)
      as (ext & Ht & Hg & Hclear).
    destruct (response_iteration fuel r response (Some e) l L w)
      as [[] w1|rr w1]; cbn [final] in Ht.
    + destruct (IH w1) as (exts & Ht2 & Hlen & Hrun).
      rewrite (Hclear w1 eq_refl) in Hrun.
      exists (ext :: exts). rewrite Ht2, Ht. cbn [concat length].
      rewrite app_assoc.
      split_and!; [done | lia |].
      split; [exact Hg | by apply gated_run_clear].
    + exists [ext]. cbn [final concat length]. rewrite Ht, app_nil_r.
      split_and!; [done | lia |]. split; [exact Hg | constructor].
Qed.

(** C8: with a gate, the trace of the handler is a sequence of iterations,
    at most [num] of them, and in each the response is sent only after the
    connection was accepted, the wait on the gate has returned and the gate
    has been cleared, in this order and with nothing in between; after the
    first iteration the gate is clear at the start, so the wait returns only
    after a new release by the test. *)
Theorem gate_precedes_send fuel r response num e l w :
  r <> e ->
  exists exts,
    w_trace (final (socket_handler fuel r response num (Some e) l w))
    = w_trace w ++ concat exts /\
    (length exts <= Z.to_nat num)%nat /\
    gated_run r e l response (event_flag e w) exts.
Proof.
  intros Hre. rewrite socket_handler_loop.
  unfold bind at 1. unfold list_new.
  destruct (gated_loop fuel r response e l (length (w_lists w)) Hre
              (Z.to_nat num) (set_lists (fun ls => ls ++ [[]]) w))
    as (exts & Ht & Hlen & Hrun).
  exists exts. unfold bind.
  destruct (for_range _ _ _) as [[] w1|rr w1]; cbn [final] in *;
    by split_and!.
Qed.

(** ** The IPv4 harness *)



(** ** Closing the sockets *)



(** ** The scenarios, evaluated *)

(** C1 at its failing input: after the handler of the delayed-close harness
    has returned and [cleanup] has run, the list bound to [cls.socks] is the
    empty list the thread was created with, the list of the handler, bound
    to the thread, holds the accepted socket 1, and that socket is open: no
    socket was closed at all. *)
Theorem cleanup_leaves_accepted_socket_open :
  exists w' so th,
    delayed_close_test = Done tt w' /\
    getattr cd_socks DelayedCloseSocketDummyServer w' = Some 1%nat /\
    w_lists w' !! 1%nat = Some [] /\
    w_threads w' !! 0%nat = Some th /\
    t_socks th = Some 2%nat /\
    w_lists w' !! 2%nat = Some [1%nat] /\
    accepted (w_trace w') = [1%nat] /\
    w_socks w' !! 1%nat = Some so /\
    s_closed so = false /\
    (forall s, AClose s ∉ w_trace w').
Proof.
  eexists _, _, _. split; [vm_compute; reflexivity|].
  split_and!; try (vm_compute; reflexivity).
  intros s H. vm_compute in H. elem_cases H.
Qed.





Lemma gate_precedes_send_witness :
  exists exts,
    w_trace (final (socket_handler 2 1 transfer_complete 2 (Some 0%nat) 0
                      (listening two_clients [false; false] 1)))
    = concat exts /\
    (length exts <= 2)%nat /\
    gated_run 1 0 0 transfer_complete false exts.
Proof.
  apply (gate_precedes_send 2 1 transfer_complete 2 0 0
           (listening two_clients [false; false] 1)).
  discriminate.
Defined.


(** The gate at work: with a single release, the first iteration sends and
    the second blocks in [wait] with nothing sent on its connection. *)
Example one_release_one_send :
  exists w',
    socket_handler 2 1 transfer_complete 2 (Some 0%nat) 0
      (listening two_clients [false; false] 1) = Stop Block w' /\
    sent (w_trace w') = [(1%nat, transfer_complete)] /\
    accepted (w_trace w') = [1; 2]%nat.
Proof.
  eexists. split; [vm_compute; reflexivity|]. split; vm_compute; reflexivity.
Qed.

(** Without the forced flag the base harness opens an IPv6 socket. *)
Example base_harness_uses_ipv6 :
  ASocket 0 AF_INET6
  ∈ w_trace (final (start_response_handler SocketDummyServer
                      transfer_complete 1 None (initial linux true [] 0))).
Proof. vm_compute w_trace. elem_here. Qed.

(** A failed [bind] reaches the caller as the start-up exception. *)
Example start_fails_when_bind_fails :
  exists w',
    start_response_handler SocketDummyServer transfer_complete 1 None
      (initial no_bind true [] 0) = Stop Raise w'.
Proof. eexists. vm_compute. reflexivity. Qed.

(** * Further properties *)

(** ** Starting a harness *)

Lemma start_server_ok c h w p :
  os_socket_ok (w_os w) (class_family w) = true ->
  os_bind (w_os w) (class_family w) host = Some p ->
  exists w',
    SocketDummyServer__start_server c h w = Done tt w' /\
    w_socks w'
    = w_socks w ++ [mk_sock (class_family w) (Some p) true false [] []] /\
    w_threads w'
    = w_threads w
      ++ [mk_thread (server_thread_class c) h host
            (Some (length (w_events w))) None (Some p)
            (init_socks (server_thread_class c) w)
            (Some (length (w_socks w)))] /\
    w_events w' = w_events w ++ [true] /\
    w_lists w' = w_lists w ++ init_lists (server_thread_class c) /\
    (forall c', w_classes w' c'
                = if decide (c' = c)
                  then mk_cls_dict (Some (length (w_threads w)))
                         (cd_socks (w_classes w c)) (Some p)
                  else w_classes w c') /\
    w_backlog w' = w_backlog w /\ w_releases w' = w_releases w /\
    w_USE_IPV6 w' = w_USE_IPV6 w /\ w_os w' = w_os w /\
    w_trace w'
    = w_trace w
      ++ listen_actions (length (w_threads w))
           (mk_thread (server_thread_class c) h host
              (Some (length (w_events w))) None None
              (init_socks (server_thread_class c) w) None)
           w (length (w_socks w)) p
      ++ [ASet (length (w_events w))].
Proof.
  intros Hsock Hbind. unfold SocketDummyServer__start_server.
  unfold bind at 1. unfold new_event.
  unfold bind at 1. unfold Thread_init. unfold bind at 1.
  set (k := server_thread_class c).
  assert (Hinit : exists w0,
    match k with
    | SocketServerThread => ret None
    | DelayedSocketServerThread => l <- list_new ;; ret (Some l)
    end (set_events (fun l => l ++ [false]) w)
    = Done (init_socks k w) w0 /\
    w0 = set_lists (fun ls => ls ++ init_lists k)
           (set_events (fun l => l ++ [false]) w)).
  { destruct k; eexists; (split; [reflexivity|]); unfold set_lists; wsimpl;
      cbn [init_lists]; rewrite ?app_nil_r; reflexivity. }
  destruct Hinit as (w0 & -> & ->).
  unfold bind at 1. unfold setattr, modify.
  unfold bind at 1. unfold Thread_start, catch. unfold bind at 1. wsimpl.
  set (th := mk_thread k h host _ None None _ None).
  match goal with |- context [SocketServerThread_listen _ ?W] =>
    set (w1 := W) end.
  destruct (listen_ok (length (w_threads w)) th w1 p)
    as (w2 & Hrun & Htr & Hs & Hth & Hev & Hli & Hb & Hre & Hcl & Hos & Huse).
  { subst w1. wsimpl. apply lookup_new. }
  { exact Hsock. }
  { exact Hbind. }
  rewrite Hrun. unfold set_thread. rewrite Hth. subst w1. wsimpl.
  rewrite !insert_new, lookup_new.
  unfold bind at 1. unfold event_wait_timeout, ret at 1.
  unfold bind at 1. unfold event_is_set, event_flag. wsimpl.
  rewrite Hev. cbn [th t_ready_event].
  rewrite insert_new, lookup_new. cbn [default negb]. cbv [id]. cbn [negb].
  unfold publish_port. unfold bind at 1. unfold get_thread. wsimpl.
  rewrite Hth. wsimpl. rewrite !insert_new, lookup_new.
  cbn [with_frame with_port t_port].
  eexists. split; [reflexivity|]. unfold setattr, modify. wsimpl.
  rewrite ?Hs, ?Htr, ?Huse, ?Hcl, ?Hth, ?Hev, ?Hli, ?Hb, ?Hre, ?Hos. wsimpl.
  rewrite ?insert_new.
  cbn [th with_frame with_port t_ready_event ready_actions
       t_class t_socket_handler t_host t_USE_IPV6 t_socks].
  rewrite <- ?app_assoc.
  split_and!; try reflexivity.
  - apply insert_new.
  - intros c'. destruct (decide (c' = c)) as [->|Hne]; reflexivity.
Qed.

Lemma getattr_own {A} (attr : cls_dict -> option A) c w a :
  attr (w_classes w c) = Some a -> getattr attr c w = Some a.
Proof. intros H. unfold getattr. destruct c; cbn [mro lookup_attr]; by rewrite H. Qed.

Lemma delayed_start_server_ok c h w p :
  server_thread_class c = DelayedSocketServerThread ->
  os_socket_ok (w_os w) (class_family w) = true ->
  os_bind (w_os w) (class_family w) host = Some p ->
  exists w',
    DelayedCloseSocketDummyServer__start_server c h w = Done tt w' /\
    w_socks w'
    = w_socks w ++ [mk_sock (class_family w) (Some p) true false [] []] /\
    w_threads w'
    = w_threads w
      ++ [mk_thread DelayedSocketServerThread h host
            (Some (length (w_events w))) None (Some p)
            (Some (length (w_lists w))) (Some (length (w_socks w)))] /\
    w_events w' = w_events w ++ [true] /\
    w_lists w' = w_lists w ++ [[]] /\
    (forall c', w_classes w' c'
                = if decide (c' = c)
                  then mk_cls_dict (Some (length (w_threads w)))
                         (Some (length (w_lists w))) (Some p)
                  else w_classes w c') /\
    w_backlog w' = w_backlog w /\ w_releases w' = w_releases w /\
    w_USE_IPV6 w' = w_USE_IPV6 w /\ w_os w' = w_os w.
Proof.
  intros Hk Hsock Hbind. unfold DelayedCloseSocketDummyServer__start_server.
  destruct (start_server_ok c h w p Hsock Hbind)
    as (w1 & Hrun & Hs & Hth & Hev & Hli & Hcl & Hb & Hre & Huse & Hos & Htr).
  rewrite Hk in *. cbn [init_socks init_lists] in *.
  rewrite (bind_eq_Done _ _ _ _ _ Hrun).
  unfold bind at 1. unfold get.
  rewrite (getattr_own cd_server_thread c w1 (length (w_threads w)))
    by (rewrite Hcl, decide_True by done; reflexivity).
  unfold bind at 1. unfold get_thread. rewrite Hth, lookup_new.
  cbn [t_socks]. unfold setattr, modify.
  eexists. split; [reflexivity|]. wsimpl.
  split_and!; try assumption.
  intros c'. rewrite Hcl. destruct (decide (c' = c)); reflexivity.
Qed.

Lemma listen_fails_frame self th w :
  w_threads w !! self = Some th ->
  os_socket_ok (w_os w) (thread_family th w) = false
  \/ os_bind (w_os w) (thread_family th w) (t_host th) = None ->
  exists w',
    SocketServerThread_listen self w = Stop Raise w' /\
    w_trace w' = w_trace w ++ failed_listen_actions (thread_family th w) w /\
    w_socks w' = w_socks w ++ failed_listen_socks (thread_family th w) w /\
    w_events w' = w_events w /\ w_threads w' = w_threads w /\
    w_classes w' = w_classes w /\ w_lists w' = w_lists w /\
    w_backlog w' = w_backlog w.
Proof.
  intros Hth Hfail.
  unfold SocketServerThread_listen, thread_family, failed_listen_actions,
    failed_listen_socks in *.
  unfold bind, get_thread, get. rewrite Hth.
  destruct (USE_IPV6 th w) eqn:Huse;
    unfold warn, modify, socket_socket; wsimpl;
    (destruct (os_socket_ok (w_os w) _) eqn:Hsock;
     [ destruct Hfail as [Hfail|Hbind]; [discriminate|];
       destruct (os_win32 (w_os w)) eqn:Hwin; unfold setsockopt, ret, modify;
       unfold sock_bind; wsimpl; rewrite lookup_new; ssimpl; rewrite Hbind
     | ]);
    (eexists; split; [reflexivity|]); wsimpl; cbn [app];
    rewrite <- ?app_assoc, ?app_nil_r; by split_and!.
Qed.








Lemma ipv4_start_server_state h w p :
  os_socket_ok (w_os w) AF_INET = true ->
  os_bind (w_os w) AF_INET host = Some p ->
  exists w',
    IPV4SocketDummyServer__start_server IPV4SocketDummyServer h w
    = Done tt w' /\
    w_socks w' = w_socks w ++ [mk_sock AF_INET (Some p) true false [] []] /\
    w_threads w'
    = w_threads w
      ++ [mk_thread SocketServerThread h host (Some (length (w_events w)))
            (Some false) (Some p) None (Some (length (w_socks w)))] /\
    w_events w' = w_events w ++ [true] /\
    w_lists w' = w_lists w /\
    (forall c', w_classes w' c'
                = if decide (c' = IPV4SocketDummyServer)
                  then mk_cls_dict (Some (length (w_threads w)))
                         (cd_socks (w_classes w IPV4SocketDummyServer))
                         (Some p)
                  else w_classes w c') /\
    w_backlog w' = w_backlog w /\ w_releases w' = w_releases w.
Proof.
  intros Hsock Hbind. unfold IPV4SocketDummyServer__start_server.
  unfold bind at 1. unfold new_event.
  unfold bind at 1. unfold Thread_init. unfold bind at 1. unfold ret at 1.
  unfold bind at 1. unfold setattr, modify.
  unfold bind at 1. unfold set_thread. wsimpl. rewrite lookup_new.
  unfold bind at 1. unfold Thread_start, catch. unfold bind at 1.
  set (th := with_USE_IPV6 false _).
  match goal with |- context [SocketServerThread_listen _ ?W] =>
    set (w0 := W) end.
  destruct (listen_ok (length (w_threads w)) th w0 p)
    as (w1 & Hrun & Htr & Hs & Hth & Hev & Hli & Hb & Hre & Hcl & Hos & Huse).
  { subst w0. wsimpl. rewrite insert_new. apply lookup_new. }
  { exact Hsock. }
  { exact Hbind. }
  rewrite Hrun. unfold set_thread. rewrite Hth. subst w0. wsimpl.
  rewrite !insert_new, lookup_new.
  unfold bind at 1. unfold event_wait_timeout, ret at 1.
  unfold bind at 1. unfold event_is_set, event_flag. wsimpl.
  rewrite Hev. cbn [th with_USE_IPV6 t_ready_event].
  rewrite insert_new, lookup_new. cbn [default negb]. cbv [id]. cbn [negb].
  unfold publish_port. unfold bind at 1. unfold get_thread. wsimpl.
  rewrite Hth. wsimpl. rewrite !insert_new, lookup_new.
  cbn [with_frame with_port t_port].
  eexists. split; [reflexivity|]. unfold setattr, modify. wsimpl.
  rewrite ?Hs, ?Hcl, ?Hth, ?Hev, ?Hli, ?Hb, ?Hre. wsimpl.
  rewrite ?insert_new.
  cbn [th with_USE_IPV6 with_frame with_port t_ready_event].
  split_and!; try reflexivity.
  - apply insert_new.
  - intros c'. destruct (decide (c' = IPV4SocketDummyServer)) as [->|];
      reflexivity.
Qed.

(** The classes that [_start_server] of class [c] leaves alone, and the
    port it stores on [c]. *)
Lemma start_server_classes c h w p :
  os_socket_ok (w_os w) (harness_family c w) = true ->
  os_bind (w_os w) (harness_family c w) host = Some p ->
  exists w',
    _start_server c h w = Done tt w' /\
    cd_port (w_classes w' c) = Some p /\
    (forall c', c' <> c -> w_classes w' c' = w_classes w c').
Proof.
  intros Hsock Hbind.
  destruct c; cbn [_start_server harness_family] in *.
  - destruct (start_server_ok SocketDummyServer h w p Hsock Hbind)
      as (w1 & Hrun1 & _ & _ & _ & _ & Hcl & _).
    exists w1. split_and!; [done | by rewrite Hcl, decide_True |].
    intros c' Hne. by rewrite Hcl, decide_False.
  - destruct (delayed_start_server_ok DelayedCloseSocketDummyServer h w p
                eq_refl Hsock Hbind)
      as (w1 & Hrun1 & _ & _ & _ & _ & Hcl & _).
    exists w1. split_and!; [done | by rewrite Hcl, decide_True |].
    intros c' Hne. by rewrite Hcl, decide_False.
  - destruct (ipv4_start_server_state h w p Hsock Hbind)
      as (w1 & Hrun1 & _ & _ & _ & _ & Hcl & _).
    exists w1. split_and!; [done | by rewrite Hcl, decide_True |].
    intros c' Hne. by rewrite Hcl, decide_False.
  - destruct (delayed_start_server_ok FTPSocketDummyServer h w p
                eq_refl Hsock Hbind)
      as (w1 & Hrun1 & _ & _ & _ & _ & Hcl & _).
    exists w1. split_and!; [done | by rewrite Hcl, decide_True |].
    intros c' Hne. by rewrite Hcl, decide_False.
Qed.

(** X3: the state of a harness is kept on its class.  A start of class [c]
    changes no attribute of a class that does not inherit from [c]; and a
    class that inherits from [c] and has no port of its own, nor any class
    between them, sees the port of [c]. *)
Theorem harness_state_is_per_class c h w p :
  os_socket_ok (w_os w) (harness_family c w) = true ->
  os_bind (w_os w) (harness_family c w) host = Some p ->
  exists w',
    _start_server c h w = Done tt w' /\
    (forall c', c ∉ mro c' ->
       getattr cd_port c' w' = getattr cd_port c' w /\
       getattr cd_server_thread c' w' = getattr cd_server_thread c' w /\
       getattr cd_socks c' w' = getattr cd_socks c' w) /\
    (forall c', c ∈ mro c' ->
       (forall c'', c'' <> c -> cd_port (w_classes w c'') = None) ->
       getattr cd_port c' w' = Some p).
Proof.
  intros Hsock Hbind.
  destruct (start_server_classes c h w p Hsock Hbind)
    as (w' & Hrun & Hown & Hcl).
  exists w'. split; [exact Hrun|]. split.
  - intros c' Hnot.
    assert (Hsame : forall c'', c'' ∈ mro c' ->
                                w_classes w' c'' = w_classes w c'').
    { intros c'' Hin. apply Hcl. intros ->. contradiction. }
    unfold getattr.
    destruct c'; cbn [mro lookup_attr] in *;
      rewrite ?Hsame by elem_here; done.
  - intros c' Hin Hnone.
    assert (Hother : forall c'', c'' <> c -> cd_port (w_classes w' c'') = None).
    { intros c'' Hne. rewrite Hcl by done. by apply Hnone. }
    unfold getattr.
    destruct c, c'; cbn [mro lookup_attr] in *;
      try (elem_cases Hin; fail);
      rewrite ?Hown, ?Hother by discriminate; reflexivity.
Qed.

Lemma harness_state_is_per_class_witness :
  exists w',
    _start_server DelayedCloseSocketDummyServer
      (response_handler 0 transfer_complete 1 None) imported = Done tt w' /\
    getattr cd_port SocketDummyServer w' = None /\
    getattr cd_port IPV4SocketDummyServer w' = None /\
    getattr cd_port FTPSocketDummyServer w' = Some 40000.
Proof.
  destruct (harness_state_is_per_class DelayedCloseSocketDummyServer
              (response_handler 0 transfer_complete 1 None) imported 40000)
    as (w' & Hrun & Hsame & Hsees); [reflexivity | reflexivity |].
  exists w'. split; [exact Hrun|]. split_and!.
  - destruct (Hsame SocketDummyServer) as [-> _]; [|reflexivity].
    intros H. elem_cases H.
  - destruct (Hsame IPV4SocketDummyServer) as [-> _]; [|reflexivity].
    intros H. elem_cases H.
  - apply Hsees; [elem_here|]. intros c'' _. by destruct c''.
Defined.

(** ** The handlers at their edges *)

Lemma bind_assoc {A B C} (m : M A) (k : A -> M B) (k' : B -> M C) w :
  bind (bind m k) k' w = bind m (fun a => bind (k a) k') w.
Proof. unfold bind. by destruct (m w). Qed.

Lemma for_range_add n m body w :
  for_range (n + m) body w
  = bind (for_range n body) (fun _ => for_range m body) w.
Proof.
  revert w. induction n as [|n IH]; intros w; [reflexivity|].
  cbn [for_range Nat.add]. rewrite bind_assoc. unfold bind at 1 2.
  destruct (body w) as [[] w1|r w1]; [apply IH | reflexivity].
Qed.

(** X4: a handler built for [num <= 0] returns at once with a new empty
    list, without setting its event, accepting or sending; the base thread
    then closes its listening socket straight away, with every client still
    waiting to be accepted. *)
Theorem nonpositive_num_serves_nobody fuel self sock w th lo :
  w_threads w !! self = Some th ->
  closure_num (t_socket_handler th) <= 0 ->
  w_socks w !! sock = Some lo ->
  call fuel (t_socket_handler th) sock w
  = Done (length (w_lists w)) (set_lists (fun ls => ls ++ [[]]) w) /\
  (t_class th = SocketServerThread ->
   _handle_socket fuel self sock w
   = Done tt (log (AClose sock)
                (set_socks <[sock := sock_closed lo]>
                   (set_lists (fun ls => ls ++ [[]]) w)))).
Proof.
  intros Hth Hnum Hso.
  assert (Hcall : call fuel (t_socket_handler th) sock w
                  = Done (length (w_lists w))
                      (set_lists (fun ls => ls ++ [[]]) w)).
  { destruct (t_socket_handler th); cbn [closure_num call] in *.
    - rewrite socket_handler_loop. rewrite Z2Nat.nonpos by exact Hnum.
      reflexivity.
    - rewrite ftp_socket_handler_loop. rewrite Z2Nat.nonpos by exact Hnum.
      reflexivity. }
  split; [exact Hcall|]. intros Hk.
  unfold _handle_socket. unfold bind at 1, get_thread at 1. rewrite Hth, Hk.
  unfold SocketServerThread__handle_socket.
  unfold bind at 1, get_thread at 1. rewrite Hth.
  rewrite (bind_eq_Done _ _ _ _ _ Hcall). unfold close. wsimpl.
  by rewrite Hso.
Qed.

Lemma nonpositive_num_serves_nobody_witness :
  exists w',
    _handle_socket 1 0 0
      (final (Thread_start 0
                (one_thread linux SocketServerThread transfer_complete 0)))
    = Done tt w' /\
    w_trace w'
    = [ASocket 0 AF_INET6; ASetsockopt 0; ABind 0 host 40000;
       AStorePort 0 40000; AListen 0; ASet 1; AClose 0].
Proof.
  destruct (nonpositive_num_serves_nobody 1 0 0
              (final (Thread_start 0
                        (one_thread linux SocketServerThread
                           transfer_complete 0)))
              (mk_thread SocketServerThread
                 (response_handler 0 transfer_complete 0 None) host
                 (Some 1%nat) None (Some 40000) None (Some 0%nat))
              (mk_sock AF_INET6 (Some 40000) true false [] []))
    as [_ H]; [reflexivity | cbn; lia | reflexivity |].
  eexists. split; [apply H; reflexivity | reflexivity].
Defined.

(** X5: with fewer clients than [num], the response handler serves those
    that connect, sets its event for the next iteration and then waits in
    [accept] for ever: it does not return, so the thread never gets to
    close the listening socket. *)
Theorem socket_handler_waits_for_missing_clients
  fuel r response num g l w lo clients :
  (length clients < Z.to_nat num)%nat ->
  w_socks w !! l = Some lo ->
  s_closed lo = false ->
  s_listening lo = true ->
  w_backlog w = clients ->
  well_behaved fuel clients ->
  released g (length clients) w ->
  exists w' ext,
    socket_handler fuel r response num g l w = Stop Block w' /\
    w_trace w' = w_trace w ++ ext ++ [ASet r] /\
    accepted ext = seq (length (w_socks w)) (length clients) /\
    sent ext = map (fun s => (s, response))
                   (seq (length (w_socks w)) (length clients)) /\
    w_socks w' = w_socks w ++ map (served response lo) clients /\
    w_backlog w' = [].
Proof.
  intros Hlt Hl Hop Hlis Hb Hwb Hrel.
  rewrite socket_handler_loop. unfold bind at 1. unfold list_new.
  replace (Z.to_nat num)
    with (length clients + S (Z.to_nat num - length clients - 1))%nat by lia.
  unfold bind at 1. rewrite for_range_add.
  destruct (response_loop_ok fuel r response g l (length (w_lists w)) lo
              clients (set_lists (fun ls => ls ++ [[]]) w) [] [])
    as (w1 & ext & Hrun & Hs & Hb1 & HL & Ht & Ha & Hse); try assumption.
  { wsimpl. by rewrite app_nil_r. }
  { wsimpl. apply lookup_new. }
  rewrite (bind_eq_Done _ _ _ _ _ Hrun). cbn [for_range].
  unfold bind at 1. unfold response_iteration. unfold bind at 1.
  unfold event_set, modify. unfold bind at 1. unfold accept. wsimpl.
  rewrite Hs, (lookup_app_l_Some _ _ _ _ Hl), Hop, Hlis, Hb1.
  cbn [orb negb].
  eexists _, ext. split; [reflexivity|]. wsimpl.
  rewrite Ht, Hs, <- app_assoc. by split_and!.
Qed.

Lemma socket_handler_waits_for_missing_clients_witness :
  exists w',
    socket_handler 2 0 transfer_complete 3 None 0
      (listening two_clients [false] 0) = Stop Block w' /\
    sent (w_trace w')
    = [(1%nat, transfer_complete); (2%nat, transfer_complete)] /\
    w_backlog w' = [].
Proof.
  destruct (socket_handler_waits_for_missing_clients 2 0 transfer_complete 3
              None 0 (listening two_clients [false] 0)
              (mk_sock AF_INET (Some 40000) true false [] []) two_clients)
    as (w' & ext & Hrun & Ht & _ & Hs & _ & Hb).
  - cbn. lia.
  - reflexivity.
  - reflexivity.
  - reflexivity.
  - reflexivity.
  - repeat constructor.
  - left. reflexivity.
  - exists w'. split_and!; [exact Hrun | | exact Hb].
    rewrite Ht. cbn [listening w_trace app]. unfold sent in *.
    rewrite omap_app, Hs. reflexivity.
Defined.

(** X6: a client that closes its connection before it has sent a
    terminated request stops the whole handler: whatever the fuel, the
    handler is still draining that connection; nothing is sent to it and the
    clients behind it are never accepted. *)
Theorem socket_handler_stuck_on_early_close
  fuel r response num g l w lo reads rest :
  1 <= num ->
  w_socks w !! l = Some lo ->
  s_closed lo = false ->
  s_listening lo = true ->
  w_backlog w = reads :: rest ->
  has_request reads = false ->
  exists w',
    socket_handler fuel r response num g l w = Stop Spin w' /\
    w_trace w' = w_trace w ++ [ASet r; AAccept l (length (w_socks w))] /\
    w_backlog w' = rest.
Proof.
  intros Hnum Hl Hop Hlis Hb Hreq.
  rewrite socket_handler_loop. unfold bind at 1. unfold list_new.
  replace (Z.to_nat num) with (S (Z.to_nat num - 1)) by lia.
  cbn [for_range]. unfold bind at 1. unfold bind at 1.
  unfold response_iteration. unfold bind at 1. unfold event_set, modify.
  unfold bind at 1. unfold accept. wsimpl. rewrite Hl, Hop, Hlis, Hb.
  cbn [orb negb]. unfold bind at 1.
  match goal with |- context [consume_socket fuel ?s ?n ?W] =>
    destruct (consume_socket_spins fuel s n W (conn_sock lo reads))
      as (w' & Hspin);
    [ wsimpl; apply lookup_new | reflexivity | exact Hreq |];
    destruct (consume_socket_frame fuel s n W) as (Ht & _ & _ & _ & Hbk & _)
  end.
  rewrite Hspin in *. cbn [final] in Ht, Hbk. wsimpl.
  exists w'. split; [reflexivity|]. rewrite Ht, Hbk, <- app_assoc. by split.
Qed.

Lemma socket_handler_stuck_on_early_close_witness :
  exists w',
    socket_handler 5 0 transfer_complete 2 None 0
      (listening [[b "RETR"]; [b "RETR b" ++ crlf]] [false] 0)
    = Stop Spin w' /\
    w_trace w' = [ASet 0; AAccept 0 1] /\
    w_backlog w' = [[b "RETR b" ++ crlf]].
Proof.
  apply (socket_handler_stuck_on_early_close 5 0 transfer_complete 2 None 0
           (listening [[b "RETR"]; [b "RETR b" ++ crlf]] [false] 0)
           (mk_sock AF_INET (Some 40000) true false [] [])
           [b "RETR"] [[b "RETR b" ++ crlf]]);
    [lia | reflexivity | reflexivity | reflexivity | reflexivity
    | reflexivity].
Defined.

(** ** The whole trace of a run that returns *)

Lemma gate_Done_segment g w w' :
  gate g w = Done tt w' ->
  exists seg,
    gate_segment g seg /\ w_trace w' = w_trace w ++ seg /\
    w_socks w' = w_socks w.
Proof.
  destruct g as [e|]; cbn [gate gate_segment].
  - intros H. apply bind_Done in H as ([] & w1 & Hw & Hc).
    unfold event_clear, modify in Hc. injection Hc as <-.
    unfold event_wait in Hw. destruct (event_flag e w).
    + injection Hw as <-. exists [AWait e; AClear e]. wsimpl.
      rewrite <- app_assoc. by split_and!; [left| |].
    + destruct (w_releases w); [discriminate|]. injection Hw as <-.
      exists [ARelease e; AWait e; AClear e]. wsimpl.
      rewrite <- !app_assoc. by split_and!; [right| |].
  - intros [= <-]. exists []. by rewrite app_nil_r.
Qed.

Lemma response_iteration_trace fuel r response g l L w w' :
  response_iteration fuel r response g l L w = Done tt w' ->
  exists seg,
    gate_segment g seg /\
    w_trace w'
    = w_trace w
      ++ connection_actions r l [] response (length (w_socks w)) seg /\
    length (w_socks w') = S (length (w_socks w)).
Proof.
  unfold response_iteration. intros H.
  apply bind_Done in H as ([] & w1 & H1 & H).
  apply bind_Done in H as (s & w2 & H2 & H).
  apply bind_Done in H as ([] & w3 & H3 & H).
  apply bind_Done in H as ([] & w4 & H4 & H).
  apply bind_Done in H as ([] & w5 & H5 & H6).
  unfold event_set, modify in H1. injection H1 as <-.
  unfold accept in H2. wsimpl.
  destruct (w_socks w !! l) as [lo|]; [|discriminate].
  destruct (s_closed lo || negb (s_listening lo)); [discriminate|].
  destruct (w_backlog w) as [|reads rest]; [discriminate|].
  injection H2 as <- <-.
  apply consume_socket_Done_frame in H3 as [Ht3 Hl3].
  apply gate_Done_segment in H4 as (seg & Hseg & Ht4 & Hso4).
  apply send_Done in H5 as [Ht5 Hl5].
  unfold list_append in H6.
  destruct (w_lists w5 !! L); [|discriminate]. injection H6 as <-.
  wsimpl. rewrite length_app in Hl3. cbn [length] in Hl3.
  exists seg. split; [exact Hseg|]. split.
  - rewrite Ht5, Ht4, Ht3. unfold connection_actions. cbn [map app].
    rewrite <- !app_assoc. reflexivity.
  - rewrite Hl5, Hso4, Hl3. lia.
Qed.

Lemma ftp_iteration_trace fuel r response g p1 p2 p3 p4 l L w w' :
  ftp_iteration fuel r response g p1 p2 p3 p4 l L w = Done tt w' ->
  exists seg,
    gate_segment g seg /\
    w_trace w'
    = w_trace w
      ++ connection_actions r l (step_payloads [p1; p2; p3; p4]) response
           (length (w_socks w)) seg /\
    length (w_socks w') = S (length (w_socks w)).
Proof.
  unfold ftp_iteration. intros H.
  apply bind_Done in H as ([] & w1 & H1 & H).
  apply bind_Done in H as (s & w2 & H2 & H).
  apply bind_Done in H as ([] & w3 & H3 & H).
  apply bind_Done in H as ([] & w4 & H4 & H).
  apply bind_Done in H as ([] & w5 & H5 & H).
  apply bind_Done in H as ([] & w6 & H6 & H).
  apply bind_Done in H as ([] & w7 & H7 & H).
  apply bind_Done in H as ([] & w8 & H8 & H).
  apply bind_Done in H as ([] & w9 & H9 & H).
  apply bind_Done in H as ([] & w10 & H10 & H).
  apply bind_Done in H as ([] & w11 & H11 & H12).
  unfold event_set, modify in H1. injection H1 as <-.
  unfold accept in H2. wsimpl.
  destruct (w_socks w !! l) as [lo|]; [|discriminate].
  destruct (s_closed lo || negb (s_listening lo)); [discriminate|].
  destruct (w_backlog w) as [|reads rest]; [discriminate|].
  injection H2 as <- <-.
  apply send_if_Done in H3 as [Ht3 Hl3].
  apply consume_socket_Done_frame in H4 as [Ht4 Hl4].
  apply send_if_Done in H5 as [Ht5 Hl5].
  apply consume_socket_Done_frame in H6 as [Ht6 Hl6].
  apply send_if_Done in H7 as [Ht7 Hl7].
  apply consume_socket_Done_frame in H8 as [Ht8 Hl8].
  apply send_if_Done in H9 as [Ht9 Hl9].
  apply gate_Done_segment in H10 as (seg & Hseg & Ht10 & Hso10).
  apply send_Done in H11 as [Ht11 Hl11].
  unfold list_append in H12.
  destruct (w_lists w11 !! L); [|discriminate]. injection H12 as <-.
  wsimpl. rewrite length_app in Hl3. cbn [length] in Hl3.
  exists seg. split; [exact Hseg|]. split.
  - rewrite Ht11, Ht10, Ht9, Ht8, Ht7, Ht6, Ht5, Ht4, Ht3.
    unfold connection_actions.
    change [p1; p2; p3; p4] with ([p1] ++ [p2] ++ [p3] ++ [p4]).
    unfold step_payloads. rewrite !omap_app, !map_app.
    cbn [app]. rewrite <- !app_assoc. reflexivity.
  - rewrite Hl11, Hso10, Hl9, Hl8, Hl7, Hl6, Hl5, Hl4, Hl3. lia.
Qed.

(** A loop of iterations that each add the actions of one connection. *)
Lemma loop_trace (body : M unit) (g : option nat)
  (actions : nat -> list action -> list action) :
  (forall w w', body w = Done tt w' ->
     exists seg,
       gate_segment g seg /\
       w_trace w' = w_trace w ++ actions (length (w_socks w)) seg /\
       length (w_socks w') = S (length (w_socks w))) ->
  forall n w w',
    for_range n body w = Done tt w' ->
    exists segs,
      length segs = n /\ Forall (gate_segment g) segs /\
      w_trace w'
      = w_trace w
        ++ concat (zip_with actions (seq (length (w_socks w)) n) segs).
Proof.
  intros Hbody. induction n as [|n IH]; intros w w' H.
  - injection H as <-. exists []. rewrite app_nil_r. by split_and!.
  - cbn [for_range] in H. apply bind_Done in H as ([] & w1 & H1 & H2).
    apply Hbody in H1 as (seg & Hseg & Ht1 & Hl1).
    apply IH in H2 as (segs & Hlen & Hall & Ht2). rewrite Hl1 in Ht2.
    exists (seg :: segs). split_and!.
    + cbn [length]. by rewrite Hlen.
    + by constructor.
    + rewrite Ht2, Ht1. cbn [seq zip_with concat].
      rewrite <- app_assoc. reflexivity.
Qed.

(** X7: when the response handler returns, its whole trace is, for the
    connections in the order they were accepted: set the event, accept,
    wait on and clear the gate if there is one, send the response.  The
    handler reads and sends nothing else and closes nothing. *)
Theorem response_handler_whole_trace fuel r response num g l w socks w' :
  socket_handler fuel r response num g l w = Done socks w' ->
  exists segs,
    length segs = Z.to_nat num /\
    Forall (gate_segment g) segs /\
    w_trace w'
    = w_trace w
      ++ concat (zip_with (connection_actions r l [] response)
                   (seq (length (w_socks w)) (Z.to_nat num)) segs).
Proof.
  rewrite socket_handler_loop. intros H.
  apply bind_Done in H as (L & w1 & H1 & H).
  apply bind_Done in H as ([] & w2 & H2 & H3).
  unfold list_new in H1. injection H1 as <- <-.
  injection H3 as _ <-.
  eapply loop_trace in H2; [exact H2|].
  intros w0 w0'. apply response_iteration_trace.
Qed.

Lemma response_handler_whole_trace_witness :
  exists w' segs,
    w_trace w'
    = concat (zip_with (connection_actions 0 0 [] transfer_complete)
                [1; 2]%nat segs) /\
    Forall (gate_segment None) segs.
Proof.
  destruct (response_handler_whole_trace 2 0 transfer_complete 2 None 0
              (listening two_clients [false] 0) 1
              (final (socket_handler 2 0 transfer_complete 2 None 0
                        (listening two_clients [false] 0))))
    as (segs & _ & Hall & Ht); [vm_compute; reflexivity|].
  eexists _, segs. split; [exact Ht | exact Hall].
Defined.

(** X8: when the FTP handler returns, its whole trace is, for the
    connections in the order they were accepted: set the event, accept,
    send the handshake payloads that are not suppressed, and only then wait
    on and clear the gate, if there is one, and send the response.  The
    gate holds back the response, not the handshake. *)
Theorem ftp_handler_whole_trace
  fuel r response num g p1 p2 p3 p4 l w socks w' :
  ftp_socket_handler fuel r response num g p1 p2 p3 p4 l w = Done socks w' ->
  exists segs,
    length segs = Z.to_nat num /\
    Forall (gate_segment g) segs /\
    w_trace w'
    = w_trace w
      ++ concat (zip_with
                   (connection_actions r l (step_payloads [p1; p2; p3; p4])
                      response)
                   (seq (length (w_socks w)) (Z.to_nat num)) segs).
Proof.
  rewrite ftp_socket_handler_loop. intros H.
  apply bind_Done in H as (L & w1 & H1 & H).
  apply bind_Done in H as ([] & w2 & H2 & H3).
  unfold list_new in H1. injection H1 as <- <-.
  injection H3 as _ <-.
  eapply loop_trace in H2; [exact H2|].
  intros w0 w0'. apply ftp_iteration_trace.
Qed.

Lemma ftp_handler_whole_trace_witness :
  exists w',
    ftp_socket_handler 1 1 transfer_complete 1 (Some 0%nat)
      (Some welcome_first_default) (Some user_resp_default)
      (Some type_i_resp_default) (Some pasv_resp_default) 0
      (listening [ftp_session] [false; false] 1) = Done 1%nat w' /\
    exists segs,
      Forall (gate_segment (Some 0%nat)) segs /\
      w_trace w'
      = concat (zip_with
                  (connection_actions 1 0
                     [welcome_first_default; user_resp_default;
                      type_i_resp_default; pasv_resp_default]
                     transfer_complete) [1%nat] segs).
Proof.
  eexists. split; [vm_compute; reflexivity|].
  destruct (ftp_handler_whole_trace 1 1 transfer_complete 1 (Some 0%nat)
              (Some welcome_first_default) (Some user_resp_default)
              (Some type_i_resp_default) (Some pasv_resp_default) 0
              (listening [ftp_session] [false; false] 1) 1 _
              ltac:(vm_compute; reflexivity))
    as (segs & _ & Hall & Ht).
  exists segs. split; [exact Hall | exact Ht].
Defined.

(** ** What the handlers leave alone *)






















(** ** The list that a handler returns *)











(** ** A whole test: start, connect, serve *)








(** ** Loading the module *)

Lemma has_ipv6_state host w :
  exists w' probes,
    _has_ipv6 host w = Done (can_bind_ipv6 (w_os w) host) w' /\
    w_socks w' = w_socks w ++ probes /\
    Forall (fun so => s_closed so = true /\ s_listening so = false) probes /\
    w_os w' = w_os w /\ w_USE_IPV6 w' = w_USE_IPV6 w /\
    w_threads w' = w_threads w /\ w_classes w' = w_classes w /\
    w_events w' = w_events w /\ w_lists w' = w_lists w /\
    w_backlog w' = w_backlog w.
Proof.
  unfold _has_ipv6, can_bind_ipv6, bind, get, catch, socket_socket.
  destruct (os_has_ipv6 (w_os w)); cbn [andb].
  2:{ exists w, []. rewrite app_nil_r. by split_and!. }
  destruct (os_socket_ok (w_os w) AF_INET6); cbn [andb].
  2:{ exists w, []. rewrite app_nil_r. by split_and!. }
  unfold sock_bind. wsimpl. rewrite lookup_new.
  cbn [new_sock s_closed s_family].
  destruct (os_bind (w_os w) AF_INET6 host) as [p|] eqn:Hbind.
  - unfold ret, close. wsimpl. rewrite insert_new, lookup_new.
    rewrite bool_decide_eq_true_2 by eauto.
    eexists _, [_]. split; [reflexivity|]. wsimpl. rewrite !insert_new.
    split_and!; try reflexivity. by repeat constructor.
  - unfold ret, close. wsimpl. rewrite lookup_new.
    rewrite bool_decide_eq_false_2 by (by intros [? ?]).
    eexists _, [_]. split; [reflexivity|]. wsimpl. rewrite !insert_new.
    split_and!; try reflexivity. by repeat constructor.
Qed.

(** X11: loading the module never fails.  It probes ['localhost'] and then
    ['::1'] and leaves every socket it made closed; the class default
    [USE_IPV6] becomes the result for ['localhost'], whatever the result for
    ['::1'] is, so a thread without a [USE_IPV6] of its own opens an IPv6
    socket exactly when an IPv6 socket could be bound to ['localhost']. *)
Theorem import_server_sets_USE_IPV6 w :
  exists w' probes,
    import_server w
    = Done (can_bind_ipv6 (w_os w) "localhost",
            can_bind_ipv6 (w_os w) "::1") w' /\
    w_USE_IPV6 w' = can_bind_ipv6 (w_os w) "localhost" /\
    w_socks w' = w_socks w ++ probes /\
    Forall (fun so => s_closed so = true /\ s_listening so = false) probes /\
    w_threads w' = w_threads w /\ w_classes w' = w_classes w /\
    (forall th, t_USE_IPV6 th = None ->
       thread_family th w'
       = if can_bind_ipv6 (w_os w) "localhost" then AF_INET6 else AF_INET).
Proof.
  unfold import_server.
  destruct (has_ipv6_state "localhost" w)
    as (w1 & probes1 & Hrun1 & Hs1 & Hc1 & Ho1 & _ & Ht1 & Hcl1 & _).
  destruct (has_ipv6_state "::1" w1)
    as (w2 & probes2 & Hrun2 & Hs2 & Hc2 & Ho2 & _ & Ht2 & Hcl2 & _).
  unfold bind at 1. rewrite Hrun1. unfold bind at 1. rewrite Hrun2.
  unfold bind, modify, ret. rewrite Ho1.
  eexists _, (probes1 ++ probes2). split; [reflexivity|]. wsimpl.
  split_and!.
  - reflexivity.
  - by rewrite Hs2, Hs1, app_assoc.
  - by apply Forall_app.
  - congruence.
  - congruence.
  - intros th Hth. unfold thread_family, USE_IPV6. rewrite Hth. reflexivity.
Qed.

(** ** The warning of the thread *)

(** X12: however the set-up of the thread ends, the thread issues the
    [NoIPv6Warning] exactly when its [USE_IPV6] is false, at most once and
    before anything else; and a socket it creates is of the family that
    [USE_IPV6] selects. *)
Theorem listen_warns_iff_ipv4 self th w :
  w_threads w !! self = Some th ->
  exists ext,
    w_trace (final (SocketServerThread_listen self w)) = w_trace w ++ ext /\
    (AWarn ∈ ext <-> USE_IPV6 th w = false) /\
    (USE_IPV6 th w = false -> exists rest, ext = AWarn :: rest /\ AWarn ∉ rest) /\
    (forall s f, ASocket s f ∈ ext ->
       s = length (w_socks w) /\
       f = if USE_IPV6 th w then AF_INET6 else AF_INET).
Proof.
  intros Hth.
  destruct (os_socket_ok (w_os w) (thread_family th w)) eqn:Hsock;
    [destruct (os_bind (w_os w) (thread_family th w) (t_host th))
       as [p|] eqn:Hbind|].
  - destruct (listen_ok self th w p Hth Hsock Hbind) as (w1 & Hrun & Ht & _).
    rewrite Hrun. cbn [final]. eexists. split; [exact Ht|].
    unfold listen_actions, ready_actions, thread_family.
    destruct (USE_IPV6 th w), (os_win32 (w_os w)), (t_ready_event th);
      cbn [app]; split_and!;
      try (split; [intros H; elem_cases H; done | done]);
      try (split; [done | intros _; elem_here]);
      try discriminate;
      try (intros _; eexists; split; [reflexivity|]; intros H; elem_cases H);
      try (intros s f H; elem_cases H; by injection H as -> ->).
  - destruct (listen_fails_frame self th w Hth (or_intror Hbind))
      as (w1 & Hrun & Ht & _).
    rewrite Hrun. cbn [final]. eexists. split; [exact Ht|].
    unfold failed_listen_actions, thread_family in *. rewrite Hsock.
    destruct (USE_IPV6 th w), (os_win32 (w_os w));
      cbn [app]; split_and!;
      try (split; [intros H; elem_cases H; done | done]);
      try (split; [done | intros _; elem_here]);
      try discriminate;
      try (intros _; eexists; split; [reflexivity|]; intros H; elem_cases H);
      try (intros s f H; elem_cases H; by injection H as -> ->).
  - destruct (listen_fails_frame self th w Hth (or_introl Hsock))
      as (w1 & Hrun & Ht & _).
    rewrite Hrun. cbn [final]. eexists. split; [exact Ht|].
    unfold failed_listen_actions, thread_family in *. rewrite Hsock.
    destruct (USE_IPV6 th w);
      cbn [app]; split_and!;
      try (split; [intros H; elem_cases H; done | done]);
      try (split; [done | intros _; elem_here]);
      try discriminate;
      try (intros _; eexists; split; [reflexivity|]; intros H; elem_cases H);
      try (intros s f H; elem_cases H; by injection H as -> ->).
Qed.

Lemma listen_warns_iff_ipv4_witness :
  exists ext,
    w_trace (final (SocketServerThread_listen 0
                      (final (set_thread 0 (with_USE_IPV6 false)
                                (one_thread linux SocketServerThread
                                   transfer_complete 1))))) = ext /\
    AWarn ∈ ext.
Proof.
  destruct (listen_warns_iff_ipv4 0
              (with_USE_IPV6 false
                 (mk_thread SocketServerThread
                    (response_handler 0 transfer_complete 1 None) host
                    (Some 1%nat) None None None None))
              (final (set_thread 0 (with_USE_IPV6 false)
                        (one_thread linux SocketServerThread
                           transfer_complete 1)))
              ltac:(vm_compute; reflexivity))
    as (ext & Ht & Hw & _).
  exists ext. split; [exact Ht|]. apply Hw. reflexivity.
Defined.

(** ** Clients that stop early *)

(** X13: on an open connection the drain returns, for some number of
    reads, exactly when one of the reads that the peer sends before it
    closes ends with CR LF; it has then consumed the reads up to the first
    such read and left the later ones.  Otherwise it is still reading after
    any number of reads.  On a closed socket it raises at its first read. *)
Theorem consume_socket_returns_iff sock chunks w so :
  w_socks w !! sock = Some so ->
  ((s_closed so = false ->
    ((exists fuel w', consume_socket fuel sock chunks w = Done tt w')
     <-> has_request (s_inbox so) = true) /\
    (has_request (s_inbox so) = true ->
     forall fuel, (length (s_inbox so) <= fuel)%nat ->
       consume_socket fuel sock chunks w
       = Done tt
           (set_socks <[sock := sock_inbox (unread (s_inbox so)) so]> w))
    /\
    (has_request (s_inbox so) = false ->
     forall fuel, exists w',
       consume_socket fuel sock chunks w = Stop Spin w')) /\
   (s_closed so = true ->
    forall fuel, consume_socket (S fuel) sock chunks w = Stop Raise w)).
Proof.
  intros Hso. split.
  - intros Hop. split_and!.
    + split.
      * intros (fuel & w' & Hrun).
        destruct (has_request (s_inbox so)) eqn:Hreq; [done|].
        destruct (consume_socket_spins fuel sock chunks w so Hso Hop Hreq)
          as (w'' & Hspin).
        rewrite Hspin in Hrun. discriminate.
      * intros Hreq. eexists (length (s_inbox so)), _.
        by apply (consume_socket_ok _ sock chunks w so).
    + intros Hreq fuel Hfuel.
      by apply (consume_socket_ok _ sock chunks w so).
    + intros Hreq fuel. by apply (consume_socket_spins fuel sock chunks w so).
  - intros Hcl fuel. cbn [consume_socket]. unfold bind, recv.
    by rewrite Hso, Hcl.
Qed.

Lemma consume_socket_returns_iff_witness :
  consume_socket 3 0 default_chunks
    (one_conn [b "USER a"; b "nonymous" ++ crlf; b "PASS b" ++ crlf])
  = Done tt (one_conn [b "PASS b" ++ crlf]).
Proof.
  destruct (consume_socket_returns_iff 0 default_chunks
              (one_conn [b "USER a"; b "nonymous" ++ crlf;
                         b "PASS b" ++ crlf])
              (mk_sock AF_INET (Some 40000) false false
                 [b "USER a"; b "nonymous" ++ crlf; b "PASS b" ++ crlf] [])
              eq_refl) as [H _].
  destruct (H eq_refl) as (_ & H2 & _).
  exact (H2 eq_refl 3%nat ltac:(vm_compute; lia)).
Defined.



